(** * GPU validation toolkit: a shallow embedding of [validate_gpu.py]

    The script audits the GPUs of a server against a golden YAML baseline
    and builds a JSON report.  The embedding follows the source function by
    function.  The process-wide [report_data] dictionary and the lines
    printed on standard output are threaded as an explicit [world]; a
    validator object ([self]) is passed to and returned from its methods.
    What the script asks of its host (running a shell command, probing the
    PATH, reading the YAML file, writing the report file) is a [host] record
    of answers; the time at which the module is loaded is an argument of a
    run.  The golden YAML is typed as the script uses it: a mapping from
    system models to a vendor string and a mapping of keys to a string or a
    list of strings.

    Strings are Stdlib strings whose characters stand for code points below
    256. *)

From Stdlib Require Import Ascii String DecimalString.
From stdpp Require Import base option list strings gmap.

Local Open Scope string_scope.
Local Open Scope list_scope.

(** ** Python string primitives used by the script *)

Module PyStr.

(** [str.isspace] on one character (code points below 256). *)
Definition isspace (a : ascii) : bool :=
  let n := nat_of_ascii a in
  (Nat.leb 9 n && Nat.leb n 13) || (Nat.leb 28 n && Nat.leb n 32)
  || Nat.eqb n 133 || Nat.eqb n 160.

(** [\d] of the [re] module on a text pattern, for code points below 256. *)
Definition isdigit (a : ascii) : bool :=
  let n := nat_of_ascii a in Nat.leb 48 n && Nat.leb n 57.

Definition newline : ascii := ascii_of_nat 10.

Fixpoint lstrip (s : string) : string :=
  match s with
  | String a s' => if isspace a then lstrip s' else s
  | EmptyString => EmptyString
  end.

Definition rev (s : string) : string :=
  string_of_list_ascii (List.rev (list_ascii_of_string s)).

Definition rstrip (s : string) : string := rev (lstrip (rev s)).

(** [s.strip()] *)
Definition strip (s : string) : string := rstrip (lstrip s).

(** [s.split(sep)] for a one-character separator: never the empty list. *)
Fixpoint split (sep : ascii) (s : string) : list string :=
  match s with
  | EmptyString => [EmptyString]
  | String a s' =>
      if Ascii.eqb a sep then EmptyString :: split sep s'
      else match split sep s' with
           | h :: t => String a h :: t
           | [] => [String a EmptyString]
           end
  end.

(** [sep.join(l)] *)
Fixpoint join (sep : string) (l : list string) : string :=
  match l with
  | [] => EmptyString
  | [x] => x
  | x :: l' => x +:+ sep +:+ join sep l'
  end.

(** [sub in s] on two strings. *)
Fixpoint contains (sub s : string) : bool :=
  String.prefix sub s
  || match s with
     | String _ s' => contains sub s'
     | EmptyString => false
     end.

(** The characters of a string as one-character strings (iterating a str). *)
Definition chars (s : string) : list string :=
  List.map (fun a => String a EmptyString) (list_ascii_of_string s).

(** The first whitespace-separated word, [s.split()[0]] when there is one. *)
Fixpoint word (s : string) : string :=
  match s with
  | String a s' => if isspace a then EmptyString else String a (word s')
  | EmptyString => EmptyString
  end.

Definition first_word (s : string) : string := word (lstrip s).

(** [str(n)] of a non-negative int. *)
Definition of_nat (n : nat) : string := NilZero.string_of_uint (Nat.to_uint n).

(** [s.upper()] and [s.lower()] on ASCII letters. *)
Definition upper_ascii (a : ascii) : ascii :=
  let n := nat_of_ascii a in
  if Nat.leb 97 n && Nat.leb n 122 then ascii_of_nat (n - 32) else a.

Definition lower_ascii (a : ascii) : ascii :=
  let n := nat_of_ascii a in
  if Nat.leb 65 n && Nat.leb n 90 then ascii_of_nat (n + 32) else a.

Fixpoint map_string (f : ascii -> ascii) (s : string) : string :=
  match s with
  | String a s' => String (f a) (map_string f s')
  | EmptyString => EmptyString
  end.

Definition upper : string -> string := map_string upper_ascii.
Definition lower : string -> string := map_string lower_ascii.

End PyStr.

(** ** The four extraction patterns, and [re.search] on them

    The patterns of the script are sequences of single characters and
    repeated character classes around one capture group.  The matcher is the
    backtracking one of [re]: a greedy repetition tries the longest run
    first, a lazy one the shortest, and [re.search] returns the match at the
    leftmost start. *)

Module Re.

Inductive cls : Type :=
| CChar (c : ascii)   (* a literal character *)
| CDigit              (* \d *)
| CSpace              (* \s *)
| CDot.               (* .  : anything but a newline *)

Definition cls_match (k : cls) (a : ascii) : bool :=
  match k with
  | CChar c => Ascii.eqb a c
  | CDigit => PyStr.isdigit a
  | CSpace => PyStr.isspace a
  | CDot => negb (Ascii.eqb a PyStr.newline)
  end.

Inductive item : Type :=
| One (k : cls)         (* k   *)
| Plus (k : cls)        (* k+  *)
| Star (k : cls)        (* k*  *)
| LazyStar (k : cls)    (* k*? *)
| GroupOpen             (* (   *)
| GroupClose.           (* )   *)

Definition pattern := list item.

Definition lit (s : string) : pattern :=
  List.map (fun c => One (CChar c)) (list_ascii_of_string s).

(** While the group is open ([grp = true]) consumed characters are pushed on
    [acc], most recent first. *)
Definition push (grp : bool) (a : ascii) (acc : list ascii) : list ascii :=
  if grp then a :: acc else acc.

Fixpoint match_here (p : pattern) {struct p}
  : string -> bool -> list ascii -> option (list ascii) :=
  match p with
  | [] => fun _ _ acc => Some acc
  | One k :: p' => fun s grp acc =>
      match s with
      | String a s' =>
          if cls_match k a then match_here p' s' grp (push grp a acc) else None
      | EmptyString => None
      end
  | Star k :: p' =>
      fix star (s : string) (grp : bool) (acc : list ascii) {struct s} :=
        match s with
        | String a s' =>
            if cls_match k a then
              match star s' grp (push grp a acc) with
              | Some r => Some r
              | None => match_here p' s grp acc
              end
            else match_here p' s grp acc
        | EmptyString => match_here p' s grp acc
        end
  | Plus k :: p' =>
      let star :=
        fix star (s : string) (grp : bool) (acc : list ascii) {struct s} :=
          match s with
          | String a s' =>
              if cls_match k a then
                match star s' grp (push grp a acc) with
                | Some r => Some r
                | None => match_here p' s grp acc
                end
              else match_here p' s grp acc
          | EmptyString => match_here p' s grp acc
          end in
      fun s grp acc =>
        match s with
        | String a s' =>
            if cls_match k a then star s' grp (push grp a acc) else None
        | EmptyString => None
        end
  | LazyStar k :: p' =>
      fix lazy (s : string) (grp : bool) (acc : list ascii) {struct s} :=
        match match_here p' s grp acc with
        | Some r => Some r
        | None =>
            match s with
            | String a s' =>
                if cls_match k a then lazy s' grp (push grp a acc) else None
            | EmptyString => None
            end
        end
  | GroupOpen :: p' => fun s _ _ => match_here p' s true []
  | GroupClose :: p' => fun s _ acc => match_here p' s false acc
  end.

(** [re.search(p, s)], returning [match.group(1)] when there is a match. *)
Fixpoint search (p : pattern) (s : string) : option string :=
  match match_here p s false [] with
  | Some acc => Some (string_of_list_ascii (List.rev acc))
  | None =>
      match s with
      | String _ s' => search p s'
      | EmptyString => None
      end
  end.

(** The raw pattern [GPU \d+: ], the group of a lazy [.*?], then [ \(UUID:]. *)
Definition nvidia_model : pattern :=
  lit "GPU " ++ [Plus CDigit] ++ lit ": "
  ++ [GroupOpen; LazyStar CDot; GroupClose] ++ lit " (UUID:".

(** The raw pattern [:\s+] followed by the group of a greedy [.*]. *)
Definition nvidia_vbios : pattern :=
  lit ":" ++ [Plus CSpace; GroupOpen; Star CDot; GroupClose].

(** The raw pattern [Card #\d+:\s+] followed by the group of a greedy [.*]. *)
Definition amd_model : pattern :=
  lit "Card #" ++ [Plus CDigit] ++ lit ":"
  ++ [Plus CSpace; GroupOpen; Star CDot; GroupClose].

(** The raw pattern [VBIOS version:\s+] followed by the group of a greedy [.*]. *)
Definition amd_vbios : pattern :=
  lit "VBIOS version:" ++ [Plus CSpace; GroupOpen; Star CDot; GroupClose].

End Re.

(** ** Data model *)

(** A value read from the golden YAML where the script expects a string or a
    list of strings.  The [expected] field of a check keeps the value it was
    compared with, so it is a string for a model check and the whole list
    for a VBIOS check. *)
Inductive pyval : Type :=
| PStr (s : string)
| PList (l : list string).

Inductive status_t : Type := PASS | FAIL | SKIP.

Global Instance status_eq_dec : EqDecision status_t.
Proof. solve_decision. Defined.

(** One entry of [report_data["checks_performed"]]. *)
Record CheckResult : Type := mkCheck {
  component : string;
  status : status_t;
  expected : pyval;
  actual : string;
  notes : string
}.

(** The global [report_data] dictionary. *)
Record report : Type := mkReport {
  report_id : string;
  report_status : status_t;
  system_model : string;
  checks_performed : list CheckResult
}.

(** A piece of an f-string: literal or already textual material, or a YAML
    value interpolated with Python's [str]. *)
Inductive frag : Type :=
| Txt (s : string)
| Val (v : pyval).

(** The text of one [print] call. *)
Definition text := list frag.

(** What a run changes: the report dictionary, what was printed, and the
    report file as last dumped. *)
Record world : Type := mkWorld {
  report_data : report;
  stdout : list text;
  report_file : option report
}.

(** [config[model]] of the golden YAML. *)
Record model_spec : Type := mkModelSpec {
  expected_gpu_vendor : option string;
  gpu_spec : option (gmap string pyval)
}.

(** ** The host *)

(** [subprocess.run(command, shell=True, check=True, ...)] *)
Inductive proc_result : Type :=
| Completed (out : string)
| CalledProcessError (err : string)
| FileNotFoundError.

(** [yaml.safe_load] on the opened file. *)
Inductive yaml_result : Type :=
| YamlMapping (config : gmap string model_spec)
| YamlNone
| YamlException (e : string).

(** [open(path, 'w')] followed by [json.dump]. *)
Inductive write_result : Type :=
| WriteOk
| WritePermissionError (e : string)
| WriteException (e : string).

Record host : Type := mkHost {
  subprocess_run : string -> proc_result;
  which : string -> bool;              (* is [shutil.which(tool)] truthy *)
  safe_load : string -> yaml_result;
  dump_report : string -> write_result;   (* the first attempt *)
  dump_fallback : string -> write_result  (* the attempt after PermissionError *)
}.

Definition CONFIG_FILE_PATH : string := "./golden_config.yml".
Definition JSON_REPORT_PATH : string := "./validation_report.json".

(** ** State passing *)

Definition M (A : Type) : Type := world -> A * world.

Definition ret {A} (a : A) : M A := fun w => (a, w).

Definition bind {A B} (m : M A) (k : A -> M B) : M B :=
  fun w => let (a, w') := m w in k a w'.

Notation "'let*' x ':=' m 'in' k" := (bind m (fun x => k))
  (at level 10, x name, m at level 100, k at level 200).
Notation "m '>>' k" := (bind m (fun _ => k))
  (at level 100, k at level 200, right associativity).

(** [report_data] as the module creates it; [now] is
    [datetime.datetime.now().isoformat()]. *)
Definition initial_report (now : string) : report :=
  {| report_id := "validation_report_" +:+ now;
     report_status := FAIL;
     system_model := "Unknown";
     checks_performed := [] |}.

Definition initial_world (now : string) : world :=
  {| report_data := initial_report now; stdout := []; report_file := None |}.

(** ** Standalone helpers *)

Definition print (t : text) : M unit :=
  fun w => (tt, {| report_data := report_data w;
                   stdout := stdout w ++ [t];
                   report_file := report_file w |}).

Definition log_msg (message : text) (is_error : bool) : M unit :=
  let prefix := if is_error then "[FAIL]" else "[INFO]" in
  print ([Txt prefix; Txt " "] ++ message).

Definition append_check (c : CheckResult) (r : report) : report :=
  {| report_id := report_id r;
     report_status := report_status r;
     system_model := system_model r;
     checks_performed := checks_performed r ++ [c] |}.

Definition add_check_to_report (component : string) (status : status_t)
    (expected : pyval) (actual notes : string) : M unit :=
  fun w => (tt, {| report_data :=
                     append_check (mkCheck component status expected actual notes)
                                  (report_data w);
                   stdout := stdout w;
                   report_file := report_file w |}).

Definition run_command (h : host) (command : string) : M (option string) :=
  match subprocess_run h command with
  | Completed out => ret (Some (PyStr.strip out))
  | CalledProcessError err =>
      log_msg [Txt "Command failed: '"; Txt command; Txt "'"] true >>
      log_msg [Txt "Stderr: "; Txt (PyStr.strip err)] true >>
      ret None
  | FileNotFoundError =>
      log_msg [Txt "Command '"; Txt (PyStr.first_word command);
               Txt "' not found. Is it installed and in PATH?"] true >>
      ret None
  end.

(** ** Validators *)

Inductive vendor : Type := Nvidia | Amd | Intel.

(** A validator object.  [gpu_count] is the attribute of [AmdValidator];
    the other classes neither read nor write it. *)
Record validator : Type := mkValidator {
  kind : vendor;
  spec : gmap string pyval;
  failures : nat;
  gpu_count : nat
}.

Definition vendor_name (v : validator) : string :=
  match kind v with
  | Nvidia => "NVIDIA"
  | Amd => "AMD"
  | Intel => "Intel"
  end.

(** [self.failures += 1] *)
Definition add_failure (v : validator) : validator :=
  {| kind := kind v; spec := spec v;
     failures := failures v + 1; gpu_count := gpu_count v |}.

(** [self.gpu_count = n] *)
Definition set_gpu_count (n : nat) (v : validator) : validator :=
  {| kind := kind v; spec := spec v;
     failures := failures v; gpu_count := n |}.

(** [current_value == expected_value] *)
Definition py_eq (current_value : string) (expected_value : pyval) : bool :=
  match expected_value with
  | PStr s => String.eqb current_value s
  | PList _ => false
  end.

(** [current_value in expected_value] *)
Definition py_in (current_value : string) (expected_value : pyval) : bool :=
  match expected_value with
  | PStr s => PyStr.contains current_value s
  | PList l => bool_decide (current_value ∈ l)
  end.

(** f"GPU_{i}_{check_name}" *)
Definition gpu_component (i : nat) (check_name : string) : string :=
  "GPU_" +:+ PyStr.of_nat i +:+ "_" +:+ check_name.

(** The body of the [for i, line in enumerate(items)] loop. *)
Definition validate_item (check_name : string) (expected_value : pyval)
    (parser_regex : Re.pattern) (is_vbios : bool)
    (i : nat) (line : string) (self : validator) : M validator :=
  match Re.search parser_regex line with
  | Some g =>
      let current_value := PyStr.strip g in
      let is_match :=
        if is_vbios then py_in current_value expected_value
        else py_eq current_value expected_value in
      if is_match then
        log_msg [Txt "  [PASS] GPU "; Txt (PyStr.of_nat i); Txt " ";
                 Txt check_name; Txt ": "; Txt current_value] false >>
        add_check_to_report (gpu_component i check_name) PASS
                            expected_value current_value "" >>
        ret self
      else
        log_msg [Txt "  [FAIL] GPU "; Txt (PyStr.of_nat i); Txt " ";
                 Txt check_name; Txt " Mismatch. Expected: '";
                 Val expected_value; Txt "', Found: '";
                 Txt current_value; Txt "'"] true >>
        add_check_to_report (gpu_component i check_name) FAIL
                            expected_value current_value "" >>
        ret (add_failure self)
  | None =>
      log_msg [Txt "  [FAIL] Could not parse "; Txt check_name;
               Txt " string for GPU "; Txt (PyStr.of_nat i); Txt ": ";
               Txt line] true >>
      add_check_to_report (gpu_component i check_name) FAIL
                          expected_value "Parse Error" line >>
      ret (add_failure self)
  end.

(** The loop itself, from index [i] on. *)
Fixpoint validate_items_from (check_name : string) (expected_value : pyval)
    (parser_regex : Re.pattern) (is_vbios : bool)
    (i : nat) (items : list string) (self : validator) : M validator :=
  match items with
  | [] => ret self
  | line :: rest =>
      let* self1 := validate_item check_name expected_value parser_regex
                                  is_vbios i line self in
      validate_items_from check_name expected_value parser_regex is_vbios
                          (S i) rest self1
  end.

Definition _validate_list_of_items (items : list string) (check_name : string)
    (expected_value : pyval) (parser_regex : Re.pattern) (is_vbios : bool)
    (self : validator) : M validator :=
  match items with
  | [] =>
      log_msg [Txt "  [FAIL] Command returned no items for ";
               Txt check_name; Txt "."] true >>
      ret (add_failure self)
  | _ :: _ =>
      validate_items_from check_name expected_value parser_regex is_vbios
                          0 items self
  end.

(** [[line for line in output.split('\n') if line.strip()]] *)
Definition nonblank_lines (output : string) : list string :=
  List.filter (fun line => negb (String.eqb (PyStr.strip line) ""))
              (PyStr.split PyStr.newline output).

(** *** [NvidiaValidator] *)

Definition nvidia_check_models (h : host) (expected_model : pyval)
    (self : validator) : M validator :=
  log_msg [Txt "Checking GPU Models..."] false >>
  let* models_output := run_command h "nvidia-smi -L" in
  match models_output with
  | None => ret (add_failure self)
  | Some out =>
      _validate_list_of_items (PyStr.split PyStr.newline out) "Model"
                              expected_model Re.nvidia_model false self
  end.

Definition nvidia_check_vbios (h : host) (expected_vbios_list : pyval)
    (self : validator) : M validator :=
  log_msg [Txt "Checking GPU VBIOS Versions..."] false >>
  let* vbios_output := run_command h "nvidia-smi -q | grep 'VBIOS Version'" in
  match vbios_output with
  | None => ret (add_failure self)
  | Some out =>
      _validate_list_of_items (PyStr.split PyStr.newline out) "VBIOS"
                              expected_vbios_list Re.nvidia_vbios true self
  end.

(** *** [AmdValidator] *)

Definition amd_check_models (h : host) (expected_model : pyval)
    (self : validator) : M validator :=
  log_msg [Txt "Checking GPU Models..."] false >>
  let* models_output := run_command h "rocm-smi --showproductname" in
  match models_output with
  | None =>
      add_check_to_report "ROCM_SMI_MODEL" FAIL (PStr "Command to run")
                          "Command failed" "" >>
      ret (add_failure self)
  | Some out =>
      let gpu_models := nonblank_lines out in
      let self1 := set_gpu_count (length gpu_models) self in
      log_msg [Txt "Found "; Txt (PyStr.of_nat (gpu_count self1));
               Txt " AMD GPU(s)."] false >>
      _validate_list_of_items gpu_models "Model" expected_model
                              Re.amd_model false self1
  end.

Definition amd_check_vbios (h : host) (expected_vbios_list : pyval)
    (self : validator) : M validator :=
  log_msg [Txt "Checking GPU VBIOS Versions..."] false >>
  let* vbios_output := run_command h "rocm-smi --showvbios" in
  match vbios_output with
  | None =>
      add_check_to_report "ROCM_SMI_VBIOS" FAIL (PStr "Command to run")
                          "Command failed" "" >>
      ret (add_failure self)
  | Some out =>
      let vbios_versions := nonblank_lines out in
      if negb (Nat.eqb (length vbios_versions) (gpu_count self)) then
        log_msg [Txt "  [FAIL] VBIOS count (";
                 Txt (PyStr.of_nat (length vbios_versions));
                 Txt ") does not match GPU count (";
                 Txt (PyStr.of_nat (gpu_count self)); Txt ")."] true >>
        ret (add_failure self)
      else
        _validate_list_of_items vbios_versions "VBIOS" expected_vbios_list
                                Re.amd_vbios true self
  end.

(** *** [IntelValidator] *)

Definition intel_check_models (expected_model : pyval) (self : validator)
  : M validator :=
  log_msg [Txt "[INFO] Intel Validator (_check_models) is not implemented in this demo."]
          false >>
  add_check_to_report "Intel_Check" SKIP (PStr "N/A") "N/A" "Not Implemented" >>
  ret self.

Definition intel_check_vbios (expected_vbios_list : pyval) (self : validator)
  : M validator :=
  log_msg [Txt "[INFO] Intel Validator (_check_vbios) is not implemented in this demo."]
          false >>
  ret self.

(** *** Dispatch on the class of [self] *)

Definition _check_models (h : host) (expected_model : pyval)
    (self : validator) : M validator :=
  match kind self with
  | Nvidia => nvidia_check_models h expected_model self
  | Amd => amd_check_models h expected_model self
  | Intel => intel_check_models expected_model self
  end.

Definition _check_vbios (h : host) (expected_vbios_list : pyval)
    (self : validator) : M validator :=
  match kind self with
  | Nvidia => nvidia_check_vbios h expected_vbios_list self
  | Amd => amd_check_vbios h expected_vbios_list self
  | Intel => intel_check_vbios expected_vbios_list self
  end.

(** [', '.join(expected_vbios_list)] *)
Definition join_vbios (expected_vbios_list : pyval) : string :=
  match expected_vbios_list with
  | PStr s => PyStr.join ", " (PyStr.chars s)
  | PList l => PyStr.join ", " l
  end.

(** The [except KeyError as e] branch of [validate]; [key] is the missing
    key, and [str(e)] is the key between single quotes. *)
Definition validate_missing_key (key : string) (self : validator)
  : M (bool * validator) :=
  let e := "'" +:+ key +:+ "'" in
  log_msg [Txt "Missing key "; Txt e; Txt " in [gpu_spec][";
           Txt (PyStr.lower (vendor_name self)); Txt "] section of YAML"] true >>
  add_check_to_report (PyStr.upper (vendor_name self) +:+ "_CONFIG") FAIL
                      (PStr "Config to be present") "Missing keys" e >>
  ret (false, add_failure self).

(** [GpuValidator.validate]: the returned boolean and the object after the
    call. *)
Definition validate (h : host) (self : validator) : M (bool * validator) :=
  log_msg [Txt "--- Starting "; Txt (vendor_name self);
           Txt " GPU Validation ---"] false >>
  match spec self !! "expected_model" with
  | None => validate_missing_key "expected_model" self
  | Some expected_model =>
      match spec self !! "expected_vbios_list" with
      | None => validate_missing_key "expected_vbios_list" self
      | Some expected_vbios_list =>
          log_msg [Txt "Golden YAML loaded. Verifying against:"] false >>
          log_msg [Txt "  - Model: "; Val expected_model] false >>
          log_msg [Txt "  - VBIOS (any of): ";
                   Txt (join_vbios expected_vbios_list)] false >>
          let* self1 := _check_models h expected_model self in
          let* self2 := _check_vbios h expected_vbios_list self1 in
          log_msg [Txt "--- "; Txt (vendor_name self2);
                   Txt " GPU Validation Finished ---"] false >>
          ret (Nat.eqb (failures self2) 0, self2)
      end
  end.

(** ** Factory *)

Definition new_validator (k : vendor) (gpu_spec : gmap string pyval) : validator :=
  {| kind := k; spec := gpu_spec; failures := 0; gpu_count := 0 |}.

Definition get_validator (expected_vendor : string)
    (gpu_spec : gmap string pyval) : M (option validator) :=
  if String.eqb expected_vendor "nvidia" then
    ret (Some (new_validator Nvidia gpu_spec))
  else if String.eqb expected_vendor "amd" then
    ret (Some (new_validator Amd gpu_spec))
  else if String.eqb expected_vendor "intel" then
    ret (Some (new_validator Intel gpu_spec))
  else
    log_msg [Txt "No validator defined for vendor: "; Txt expected_vendor] true >>
    ret None.

(** ** Main execution *)

Definition set_system_model (m : string) : M unit :=
  fun w => (tt, {| report_data :=
                     {| report_id := report_id (report_data w);
                        report_status := report_status (report_data w);
                        system_model := m;
                        checks_performed := checks_performed (report_data w) |};
                   stdout := stdout w;
                   report_file := report_file w |}).

Definition set_status (s : status_t) : M unit :=
  fun w => (tt, {| report_data :=
                     {| report_id := report_id (report_data w);
                        report_status := s;
                        system_model := system_model (report_data w);
                        checks_performed := checks_performed (report_data w) |};
                   stdout := stdout w;
                   report_file := report_file w |}).

(** A successful [json.dump(report_data, f, indent=2)]. *)
Definition dump : M unit :=
  fun w => (tt, {| report_data := report_data w;
                   stdout := stdout w;
                   report_file := Some (report_data w) |}).

(** Truthiness of an optional string: [None] and [""] are falsy. *)
Definition truthy (o : option string) : bool :=
  match o with
  | Some s => negb (String.eqb s "")
  | None => false
  end.

(** The [if not current_model] branch of [get_system_model]. *)
Definition system_model_unreadable : M (option string) :=
  log_msg [Txt "Cannot read system model name (dmidecode failed or returned empty)."] true >>
  log_msg [Txt "--> Did you forget to run with 'sudo'?"] true >>
  add_check_to_report "System_Model" FAIL (PStr "Any Model") "Read Error" "" >>
  ret None.

Definition get_system_model (h : host) : M (option string) :=
  log_msg [Txt "--- [Phase 1: BOM Validation] ---"] false >>
  let* current_model :=
    run_command h "dmidecode -s system-product-name | tr -d ' '" in
  match current_model with
  | Some m =>
      if String.eqb m "" then system_model_unreadable
      else
        log_msg [Txt "Detected system model: "; Txt m] false >>
        set_system_model m >>
        ret (Some m)
  | None => system_model_unreadable
  end.

Definition load_config (h : host) (file_path : string)
  : M (option (gmap string model_spec)) :=
  match safe_load h file_path with
  | YamlMapping config => ret (Some config)
  | YamlNone =>
      log_msg [Txt "Golden YAML file is empty or malformed: "; Txt file_path] true >>
      add_check_to_report "YAML_Parse" FAIL (PStr "Valid YAML data")
                          "File is empty or invalid" "" >>
      ret None
  | YamlException e =>
      log_msg [Txt "Failed to load Golden YAML: "; Txt e] true >>
      add_check_to_report "YAML_Load" FAIL (PStr file_path) "Load Error" e >>
      ret None
  end.

(** The three [shutil.which] probes, in their order. *)
Definition detect_tool (h : host) : option string :=
  if which h "nvidia-smi" then Some "nvidia"
  else if which h "rocm-smi" then Some "amd"
  else if which h "level-zero-ctl" then Some "intel"
  else None.

(** [str(tool_found)] *)
Definition str_tool (tool_found : option string) : string :=
  match tool_found with
  | Some t => t
  | None => "None"
  end.

(** The last three lines of [run_validation]: the factory call and
    [if validator and not validator.validate(): failures += validator.failures]. *)
Definition run_validator (h : host) (expected_vendor : string)
    (gpu_spec : gmap string pyval) (failures0 : nat) : M nat :=
  let* validator := get_validator expected_vendor gpu_spec in
  match validator with
  | Some v =>
      let* r := validate h v in
      if negb (fst r) then ret (failures0 + failures (snd r)) else ret failures0
  | None => ret failures0
  end.

(** The [if not expected_vendor] branch of [run_validation]. *)
Definition vendor_not_defined (current_model : string) : M nat :=
  log_msg [Txt "'expected_gpu_vendor' not defined for '";
           Txt current_model; Txt "' in YAML."] true >>
  add_check_to_report "GPU_Vendor" FAIL (PStr "Vendor Spec")
                      "Not Defined in YAML" "" >>
  ret 1.

(** The [if not gpu_spec] branch of [run_validation], entered with the
    local [failures] at [failures0]. *)
Definition gpu_spec_not_defined (current_model : string) (failures0 : nat)
  : M nat :=
  log_msg [Txt "'gpu_spec' not defined for '";
           Txt current_model; Txt "' in YAML."] true >>
  add_check_to_report "GPU_Spec" FAIL (PStr "Spec to exist")
                      "Not Defined in YAML" "" >>
  ret (failures0 + 1).

Definition run_validation (h : host) (current_model : string)
    (config : gmap string model_spec) : M nat :=
  let failures0 := 0 in
  match config !! current_model with
  | None =>
      log_msg [Txt "System model '"; Txt current_model;
               Txt "' is not defined in "; Txt CONFIG_FILE_PATH] true >>
      add_check_to_report "YAML_Spec" FAIL
                          (PStr ("Spec for " +:+ current_model)) "Not Found" "" >>
      ret 1
  | Some model_spec =>
      log_msg [Txt "Successfully loaded spec for '"; Txt current_model;
               Txt "'"] false >>
      log_msg [Txt "--- [Phase 2: GPU Validation] ---"] false >>
      match expected_gpu_vendor model_spec with
      | None => vendor_not_defined current_model
      | Some expected_vendor =>
          if String.eqb expected_vendor "" then vendor_not_defined current_model
          else
            log_msg [Txt "BOM requires GPU vendor: "; Txt expected_vendor] false >>
            let tool_found := detect_tool h in
            if negb (bool_decide (tool_found = Some expected_vendor)) then
              log_msg [Txt "BOM validation FAILED! Expected vendor '";
                       Txt expected_vendor; Txt "', but found '";
                       Txt (str_tool tool_found);
                       Txt "' tool (or tool not found)."] true >>
              add_check_to_report "GPU_Vendor" FAIL (PStr expected_vendor)
                                  (str_tool tool_found) "" >>
              ret (failures0 + 1)
            else
              log_msg [Txt "[PASS] GPU vendor validated (found ";
                       Txt (str_tool tool_found); Txt " tool)."] false >>
              add_check_to_report "GPU_Vendor" PASS (PStr expected_vendor)
                                  (str_tool tool_found) "" >>
              match gpu_spec model_spec with
              | None => gpu_spec_not_defined current_model failures0
              | Some gs =>
                  if bool_decide (gs = ∅) then
                    gpu_spec_not_defined current_model failures0
                  else run_validator h expected_vendor gs failures0
              end
      end
  end.

Definition write_report (h : host) (failures0 : nat) : M unit :=
  (if Nat.eqb failures0 0 then
     log_msg [Txt "All checks passed."] false >> set_status PASS
   else
     log_msg [Txt (PyStr.of_nat failures0); Txt " failure(s) detected."] false >>
     set_status FAIL) >>
  match dump_report h JSON_REPORT_PATH with
  | WriteOk =>
      dump >>
      log_msg [Txt "Successfully wrote JSON report to "; Txt JSON_REPORT_PATH] false
  | WritePermissionError _ =>
      log_msg [Txt "Permission denied writing to "; Txt JSON_REPORT_PATH;
               Txt ". Try running as root."] true >>
      let local_report_path := "./validation_report.json" in
      match dump_fallback h local_report_path with
      | WriteOk =>
          dump >>
          log_msg [Txt "Wrote fallback report to "; Txt local_report_path] false
      | WritePermissionError e | WriteException e =>
          log_msg [Txt "Failed to write fallback report: "; Txt e] true
      end
  | WriteException e =>
      log_msg [Txt "Failed to write JSON report: "; Txt e] true
  end.

Definition rule30 : string := "==============================".

(** Prints the verdict; the result is the argument of [sys.exit]. *)
Definition print_final_result (failures0 : nat) (system_model0 : string) : M nat :=
  print [Txt (String PyStr.newline rule30)] >>
  if Nat.eqb failures0 0 then
    print [Txt "  FINAL RESULT: [PASS]"] >>
    print [Txt "  System '"; Txt system_model0;
           Txt "' fully matches the Golden YAML standard."] >>
    print [Txt rule30] >>
    ret 0
  else
    print [Txt "  FINAL RESULT: [FAIL] ("; Txt (PyStr.of_nat failures0);
           Txt " failure(s) detected)"] >>
    print [Txt "  System '"; Txt system_model0;
           Txt "' does NOT match the Golden YAML standard."] >>
    print [Txt rule30] >>
    ret 1.

(** [main]: the result is the exit code of the process. *)
Definition main (h : host) : M nat :=
  let* system_model0 := get_system_model h in
  match system_model0 with
  | None => ret 1
  | Some m =>
      if negb (truthy (Some m)) then ret 1
      else
        let* config := load_config h CONFIG_FILE_PATH in
        match config with
        | None => ret 1
        | Some c =>
            if bool_decide (c = ∅) then ret 1
            else
              let* failures0 := run_validation h m c in
              write_report h failures0 >>
              print_final_result failures0 m
        end
  end.

(** One run of the script in a fresh process started at time [now]. *)
Definition run (h : host) (now : string) : nat * world :=
  main h (initial_world now).

(** * Vocabulary of the properties *)

(** The ledger of a world. *)
Definition checks (w : world) : list CheckResult :=
  checks_performed (report_data w).

(** Number of entries with status FAIL. *)
Definition count_fail (cs : list CheckResult) : nat :=
  length (List.filter (fun c => bool_decide (status c = FAIL)) cs).

(** An operation only ever extends the ledger at its end. *)
Definition append_only {A} (m : M A) : Prop :=
  forall w, checks w `prefix_of` checks (m w).2.

(** The failure counter of a validator does not decrease. *)
Definition counter_monotone (self : validator) (m : M validator) : Prop :=
  forall w, failures self <= failures (m w).1.

(** An operation leaves the ledger alone. *)
Definition quiet {A} (m : M A) : Prop :=
  forall w, checks (m w).2 = checks w.

(** Accounting of failures: with the counter at [f0] before and at [fa a]
    after an operation that returns [a], the counter did not decrease and
    every FAIL entry appended was counted. *)
Definition counted {A} (f0 : nat) (fa : A -> nat) (m : M A) : Prop :=
  forall w,
    f0 <= fa (m w).1
    /\ count_fail (checks (m w).2) + f0 <= count_fail (checks w) + fa (m w).1.

(** When [validate] answers [True] the counter is at zero, so the
    contribution of a validator to the run is measured as follows. *)
Definition contribution (r : bool * validator) : nat :=
  if r.1 then 0 else failures r.2.

Definition with_id (i : string) (r : report) : report :=
  {| report_id := i;
     report_status := report_status r;
     system_model := system_model r;
     checks_performed := checks_performed r |}.

(** The same world with another identifier in the dictionary and in the
    file dumped from it. *)
Definition relabel (i : string) (w : world) : world :=
  {| report_data := with_id i (report_data w);
     stdout := stdout w;
     report_file := with_id i <$> report_file w |}.

(** Started from a relabelled world an operation returns the same value and
    ends in the relabelled world. *)
Definition id_blind {A} (m : M A) : Prop :=
  forall i w, m (relabel i w) = ((m w).1, relabel i (m w).2).

(** Two reports that agree on everything but [report_id]. *)
Definition same_except_id (r1 r2 : report) : Prop :=
  report_status r1 = report_status r2
  /\ system_model r1 = system_model r2
  /\ checks_performed r1 = checks_performed r2.

(** An operation touches neither the report file nor the overall status. *)
Definition keeps_verdict {A} (m : M A) : Prop :=
  forall w,
    report_file (m w).2 = report_file w
    /\ report_status (report_data (m w).2) = report_status (report_data w).

(** ** Scenarios: the hosts and the golden YAML of the test suite *)

Definition nvidia_spec : gmap string pyval :=
  <["expected_model" := PStr "NVIDIA H100 80GB PCIe"]>
  (<["expected_vbios_list" := PList ["96.00.41.00.01"; "96.00.40.00.05"]]> ∅).

Definition amd_spec : gmap string pyval :=
  <["expected_model" := PStr "AMD Instinct MI300X"]>
  (<["expected_vbios_list" := PList ["123.456.789.001"; "123.456.789.000"]]> ∅).

Definition golden : gmap string model_spec :=
  <["SYS-421GU-TNXR" := mkModelSpec (Some "nvidia") (Some nvidia_spec)]>
  (<["SYS-8125GS-TNHR" := mkModelSpec (Some "amd") (Some amd_spec)]> ∅).

(** A host given by the answers to its commands as a table, the one tool on
    its PATH, and the golden YAML on disk. *)
Definition table_host (answers : list (string * proc_result)) (tool : string)
  : host :=
  {| subprocess_run := fun c =>
       match List.find (fun kv => String.eqb c kv.1) answers with
       | Some kv => kv.2
       | None => Completed ""
       end;
     which := fun t => String.eqb t tool;
     safe_load := fun _ => YamlMapping golden;
     dump_report := fun _ => WriteOk;
     dump_fallback := fun _ => WriteOk |}.

Definition dmidecode : string := "dmidecode -s system-product-name | tr -d ' '".

Definition lines2 (a b : string) : string := a +:+ String PyStr.newline b.

(** The NVIDIA server of [test_happy_path_nvidia_pass]. *)
Definition nvidia_ok_host : host :=
  table_host
    [(dmidecode, Completed "SYS-421GU-TNXR");
     ("nvidia-smi -L", Completed "GPU 0: NVIDIA H100 80GB PCIe (UUID: ...)");
     ("nvidia-smi -q | grep 'VBIOS Version'",
      Completed "    VBIOS Version                       : 96.00.41.00.01")]
    "nvidia-smi".

(** The server of [test_fail_path_nvidia_wrong_vbios]. *)
Definition nvidia_wrong_vbios_host : host :=
  table_host
    [(dmidecode, Completed "SYS-421GU-TNXR");
     ("nvidia-smi -L", Completed "GPU 0: NVIDIA H100 80GB PCIe (UUID: ...)");
     ("nvidia-smi -q | grep 'VBIOS Version'",
      Completed "    VBIOS Version                       : 99.99.99.99.99")]
    "nvidia-smi".

(** The server of [test_happy_path_amd_pass]. *)
Definition amd_ok_host : host :=
  table_host
    [(dmidecode, Completed "SYS-8125GS-TNHR");
     ("rocm-smi --showproductname", Completed "Card #0: AMD Instinct MI300X");
     ("rocm-smi --showvbios",
      Completed "Card #0: VBIOS version: 123.456.789.001")]
    "rocm-smi".

(** The host of [test_fail_path_config_not_found]: the YAML file cannot be
    opened. *)
Definition no_config_host : host :=
  {| subprocess_run := subprocess_run nvidia_ok_host;
     which := which nvidia_ok_host;
     safe_load := fun _ => YamlException "[Errno 2] No such file or directory";
     dump_report := fun _ => WriteOk;
     dump_fallback := fun _ => WriteOk |}.

(** The same server when [nvidia-smi -L] exits with an error. *)
Definition nvidia_broken_host : host :=
  table_host
    [(dmidecode, Completed "SYS-421GU-TNXR");
     ("nvidia-smi -L", CalledProcessError "NVIDIA-SMI has failed");
     ("nvidia-smi -q | grep 'VBIOS Version'",
      Completed "    VBIOS Version                       : 96.00.41.00.01")]
    "nvidia-smi".

(** An AMD server on which [rocm-smi --showproductname] exits with an
    error. *)
Definition amd_broken_host : host :=
  table_host
    [(dmidecode, Completed "SYS-8125GS-TNHR");
     ("rocm-smi --showproductname", CalledProcessError "rocm-smi has failed");
     ("rocm-smi --showvbios",
      Completed "Card #0: VBIOS version: 123.456.789.001")]
    "rocm-smi".

(** The same server when [nvidia-smi -L] prints only blanks. *)
Definition nvidia_blank_host : host :=
  table_host
    [(dmidecode, Completed "SYS-421GU-TNXR");
     ("nvidia-smi -L", Completed "   ");
     ("nvidia-smi -q | grep 'VBIOS Version'",
      Completed "    VBIOS Version                       : 96.00.41.00.01")]
    "nvidia-smi".

(** The server of [test_fail_path_bom_mismatch]: the YAML expects NVIDIA,
    only [rocm-smi] is installed. *)
Definition bom_mismatch_host : host :=
  table_host
    [(dmidecode, Completed "SYS-421GU-TNXR");
     ("rocm-smi --showproductname", Completed "Card #0: AMD Instinct MI300X")]
    "rocm-smi".

(** An AMD server that lists two cards and one VBIOS line. *)
Definition amd_two_models_one_vbios_host : host :=
  table_host
    [(dmidecode, Completed "SYS-8125GS-TNHR");
     ("rocm-smi --showproductname",
      Completed (lines2 "Card #0: AMD Instinct MI300X"
                        "Card #1: AMD Instinct MI300X"));
     ("rocm-smi --showvbios",
      Completed "Card #0: VBIOS version: 123.456.789.001")]
    "rocm-smi".


(** The entry that the loop of the item-list routine appends for line [i]. *)
Definition item_check (check_name : string) (expected_value : pyval)
    (parser_regex : Re.pattern) (is_vbios : bool) (i : nat) (line : string)
  : CheckResult :=
  match Re.search parser_regex line with
  | Some g =>
      let current_value := PyStr.strip g in
      let is_match :=
        if is_vbios then py_in current_value expected_value
        else py_eq current_value expected_value in
      mkCheck (gpu_component i check_name) (if is_match then PASS else FAIL)
              expected_value current_value ""
  | None =>
      mkCheck (gpu_component i check_name) FAIL expected_value
              "Parse Error" line
  end.

(** Is [s] of the shape GPU_<digits>_..., the identifier of a component-level
    check? *)
Definition gpu_indexed (s : string) : bool :=
  match Re.match_here (Re.lit "GPU_" ++ [Re.Plus Re.CDigit] ++ Re.lit "_")
                      s false [] with
  | Some _ => true
  | None => false
  end.

(** The aggregation invariant as the specification words it. *)
Definition status_iff_no_fail (r : report) : Prop :=
  report_status r = PASS
  <-> Forall (fun c => status c <> FAIL) (checks_performed r).

(** A vendor tag outside the three the factory knows. *)
Definition unrecognized (v : string) : Prop :=
  v <> "nvidia" /\ v <> "amd" /\ v <> "intel".

(** ** What the host lets a run do *)

(** The system model a run reads: the trimmed output of [dmidecode] when
    the command succeeds and the output is not empty. *)
Definition reads_model (h : host) : option string :=
  match subprocess_run h dmidecode with
  | Completed out =>
      if String.eqb (PyStr.strip out) "" then None else Some (PyStr.strip out)
  | _ => None
  end.

(** The baseline a run goes on with: a mapping that is not empty. *)
Definition loads_config (h : host) : option (gmap string model_spec) :=
  match safe_load h CONFIG_FILE_PATH with
  | YamlMapping c => if bool_decide (c = ∅) then None else Some c
  | _ => None
  end.


(** An operation touches neither [report_id] nor [system_model]. *)
Definition keeps_header {A} (m : M A) : Prop :=
  forall w,
    report_id (report_data (m w).2) = report_id (report_data w)
    /\ system_model (report_data (m w).2) = system_model (report_data w).

(** The text that closes the model name in an NVIDIA inventory line. *)
Definition uuid_marker : string := " (UUID:".

(** A FAIL entry entered the ledger between two worlds. *)
Definition fail_recorded (w w' : world) : Prop :=
  count_fail (checks w) < count_fail (checks w').

(** The number of model lines the AMD validator holds after its model
    check: the non-blank lines of the product listing when the command
    succeeded, the count it had before otherwise. *)
Definition model_lines_found (h : host) (self : validator) : nat :=
  match subprocess_run h "rocm-smi --showproductname" with
  | Completed mout => length (nonblank_lines (PyStr.strip mout))
  | _ => gpu_count self
  end.

(** * Properties *)

(** ** The model on the inputs of the test suite *)

Example search_nvidia_model :
  Re.search Re.nvidia_model "GPU 0: NVIDIA H100 80GB PCIe (UUID: ...)"
  = Some "NVIDIA H100 80GB PCIe".
Proof. reflexivity. Qed.

Example search_nvidia_vbios :
  Re.search Re.nvidia_vbios "    VBIOS Version                       : 96.00.41.00.01"
  = Some "96.00.41.00.01".
Proof. reflexivity. Qed.

Example search_amd_vbios :
  Re.search Re.amd_vbios "Card #0: VBIOS version: 123.456.789.001"
  = Some "123.456.789.001".
Proof. reflexivity. Qed.

Example search_amd_model :
  Re.search Re.amd_model "Card #0: AMD Instinct MI300X" = Some "AMD Instinct MI300X".
Proof. reflexivity. Qed.

Example search_empty_line : Re.search Re.nvidia_model "" = None.
Proof. reflexivity. Qed.

Example split_examples :
  PyStr.split PyStr.newline "" = [""]
  /\ PyStr.split PyStr.newline ("a" +:+ String PyStr.newline "b") = ["a"; "b"]
  /\ PyStr.strip "  x y  " = "x y"
  /\ PyStr.of_nat 12 = "12"
  /\ PyStr.first_word "nvidia-smi -L" = "nvidia-smi".
Proof. repeat split; reflexivity. Qed.

Example rule30_length : String.length rule30 = 30.
Proof. reflexivity. Qed.

(** Structural walk over a monadic term: [prim] closes or opens up the
    head operation, and a [match] or [if] in head position is split. *)
Ltac walk prim :=
  repeat (intros; cbv zeta; first
    [ prim
    | match goal with
      | |- _ (match ?x with _ => _ end) => destruct x
      end ]).

Lemma count_fail_app cs1 cs2 :
  count_fail (cs1 ++ cs2) = count_fail cs1 + count_fail cs2.
Proof. unfold count_fail. by rewrite List.filter_app, length_app. Qed.

Lemma count_fail_zero cs :
  count_fail cs = 0 <-> Forall (fun c => status c <> FAIL) cs.
Proof.
  unfold count_fail. induction cs as [|c cs IH]; simpl.
  - split; [constructor | done].
  - case_bool_decide as Hc; simpl.
    + split; [done | intros H; inversion H; done].
    + rewrite IH. split; [by constructor | by inversion 1].
Qed.

(** ** Quiet operations *)

Section Quiet.

Lemma quiet_ret {A} (a : A) : quiet (ret a).
Proof. done. Qed.

Lemma quiet_print t : quiet (print t).
Proof. done. Qed.

Lemma quiet_log_msg t b : quiet (log_msg t b).
Proof. done. Qed.

Lemma quiet_bind {A B} (m : M A) (k : A -> M B) :
  quiet m -> (forall a, quiet (k a)) -> quiet (bind m k).
Proof.
  intros Hm Hk w. unfold bind. specialize (Hm w).
  destruct (m w) as [a w1]. simpl in Hm. by rewrite Hk.
Qed.

Ltac quiet_prim :=
  first [ apply quiet_ret | apply quiet_print | apply quiet_log_msg
        | apply quiet_bind ].

Lemma quiet_run_command h c : quiet (run_command h c).
Proof. unfold run_command. walk quiet_prim. Qed.

Lemma quiet_get_validator v gs : quiet (get_validator v gs).
Proof. unfold get_validator. walk quiet_prim. Qed.

Lemma quiet_print_final_result n m : quiet (print_final_result n m).
Proof. unfold print_final_result. walk quiet_prim. Qed.

End Quiet.

Create HintDb quiet.
#[export] Hint Resolve quiet_ret quiet_print quiet_log_msg quiet_run_command
  quiet_get_validator quiet_print_final_result : quiet.

(** ** Append-only ledger *)

Section AppendOnly.

Lemma append_only_quiet {A} (m : M A) : quiet m -> append_only m.
Proof. intros H w. by rewrite H. Qed.

Lemma append_only_ret {A} (a : A) : append_only (ret a).
Proof. intros w. reflexivity. Qed.

Lemma append_only_add_check c s e a n :
  append_only (add_check_to_report c s e a n).
Proof. intros w. by apply prefix_app_r. Qed.

Lemma append_only_set_system_model m : append_only (set_system_model m).
Proof. intros w. reflexivity. Qed.

Lemma append_only_set_status s : append_only (set_status s).
Proof. intros w. reflexivity. Qed.

Lemma append_only_dump : append_only dump.
Proof. intros w. reflexivity. Qed.

Lemma append_only_bind {A B} (m : M A) (k : A -> M B) :
  append_only m -> (forall a, append_only (k a)) -> append_only (bind m k).
Proof.
  intros Hm Hk w. unfold bind. specialize (Hm w).
  destruct (m w) as [a w1]. simpl in Hm.
  etrans; [exact Hm | apply Hk].
Qed.

Ltac ao_prim :=
  first [ apply append_only_ret
        | apply append_only_add_check
        | apply append_only_set_system_model
        | apply append_only_set_status
        | apply append_only_dump
        | apply append_only_quiet; solve [auto with quiet]
        | apply append_only_bind ].

Lemma append_only_validate_item cn ev re vb i line self :
  append_only (validate_item cn ev re vb i line self).
Proof. unfold validate_item. walk ao_prim. Qed.

Lemma append_only_validate_items_from cn ev re vb items :
  forall i self, append_only (validate_items_from cn ev re vb i items self).
Proof.
  induction items as [|line rest IH]; intros i self; simpl.
  - apply append_only_ret.
  - apply append_only_bind; [apply append_only_validate_item | auto].
Qed.

Lemma append_only_validate_list items cn ev re vb self :
  append_only (_validate_list_of_items items cn ev re vb self).
Proof.
  unfold _validate_list_of_items. destruct items.
  - walk ao_prim.
  - apply append_only_validate_items_from.
Qed.

Ltac ao_methods :=
  first [ apply append_only_validate_list | ao_prim ].

Lemma append_only_check_models h e self :
  append_only (_check_models h e self).
Proof.
  unfold _check_models, nvidia_check_models, amd_check_models,
    intel_check_models.
  walk ao_methods.
Qed.

Lemma append_only_check_vbios h e self :
  append_only (_check_vbios h e self).
Proof.
  unfold _check_vbios, nvidia_check_vbios, amd_check_vbios,
    intel_check_vbios.
  walk ao_methods.
Qed.

Lemma append_only_validate h self : append_only (validate h self).
Proof.
  unfold validate, validate_missing_key.
  walk ltac:(first [ apply append_only_check_models
                   | apply append_only_check_vbios | ao_prim ]).
Qed.

Lemma append_only_run_validator h v gs f0 :
  append_only (run_validator h v gs f0).
Proof.
  unfold run_validator.
  walk ltac:(first [ apply append_only_validate | ao_prim ]).
Qed.

Lemma append_only_run_validation h m c :
  append_only (run_validation h m c).
Proof.
  unfold run_validation, vendor_not_defined, gpu_spec_not_defined.
  walk ltac:(first [ apply append_only_run_validator | ao_prim ]).
Qed.

Lemma append_only_get_system_model h : append_only (get_system_model h).
Proof.
  unfold get_system_model, system_model_unreadable. walk ao_prim.
Qed.

Lemma append_only_load_config h p : append_only (load_config h p).
Proof. unfold load_config. walk ao_prim. Qed.

Lemma append_only_write_report h n : append_only (write_report h n).
Proof. unfold write_report. walk ao_prim. Qed.

Lemma append_only_main h : append_only (main h).
Proof.
  unfold main.
  walk ltac:(first [ apply append_only_get_system_model
                   | apply append_only_load_config
                   | apply append_only_run_validation
                   | apply append_only_write_report | ao_prim ]).
Qed.

End AppendOnly.

(** ** Every FAIL entry is counted *)

Section Counted.

Lemma counted_ret {A} f0 (fa : A -> nat) (a : A) :
  f0 <= fa a -> counted f0 fa (ret a).
Proof. intros H w. simpl. lia. Qed.

Lemma counted_quiet_bind {A B} f0 (fb : B -> nat) (m : M A) (k : A -> M B) :
  quiet m -> (forall a, counted f0 fb (k a)) -> counted f0 fb (bind m k).
Proof.
  intros Hm Hk w. unfold bind. specialize (Hm w).
  destruct (m w) as [a w1]. simpl in Hm. rewrite <- Hm. apply Hk.
Qed.

Lemma counted_add_fail {B} f0 (fb : B -> nat) c e a n (k : unit -> M B) :
  counted (f0 + 1) fb (k tt) ->
  counted f0 fb (bind (add_check_to_report c FAIL e a n) k).
Proof.
  intros Hk w. unfold bind, add_check_to_report.
  match goal with |- context [k tt ?w1] => destruct (Hk w1) as [H1 H2] end.
  unfold checks in *. simpl in *. rewrite count_fail_app in H2.
  change (count_fail [mkCheck c FAIL e a n]) with 1 in H2. lia.
Qed.

Lemma counted_add_other {B} f0 (fb : B -> nat) c s e a n (k : unit -> M B) :
  s <> FAIL ->
  counted f0 fb (k tt) ->
  counted f0 fb (bind (add_check_to_report c s e a n) k).
Proof.
  intros Hs Hk w. unfold bind, add_check_to_report.
  match goal with |- context [k tt ?w1] => destruct (Hk w1) as [H1 H2] end.
  unfold checks in *. simpl in *. rewrite count_fail_app in H2.
  replace (count_fail [mkCheck c s e a n]) with 0 in H2; [lia|].
  unfold count_fail. simpl. by rewrite bool_decide_eq_false_2.
Qed.

Lemma counted_bind {A B} f0 (fa : A -> nat) (fb : B -> nat)
    (m : M A) (k : A -> M B) :
  counted f0 fa m -> (forall a, counted (fa a) fb (k a)) ->
  counted f0 fb (bind m k).
Proof.
  intros Hm Hk w. unfold bind. destruct (Hm w) as [H1 H2].
  destruct (m w) as [a w1]. simpl in *.
  destruct (Hk a w1) as [H3 H4]. lia.
Qed.

Ltac counted_prim :=
  first [ apply counted_ret; simpl;
          repeat match goal with
                 | |- context [Nat.eqb ?x ?y] => destruct (Nat.eqb_spec x y)
                 end; simpl; lia
        | apply counted_quiet_bind; [solve [auto with quiet] |]
        | apply counted_add_fail
        | apply counted_add_other; [discriminate |] ].

Lemma counted_validate_item cn ev re vb i line self :
  counted (failures self) failures (validate_item cn ev re vb i line self).
Proof. unfold validate_item. walk counted_prim. Qed.

Lemma counted_validate_items_from cn ev re vb items :
  forall i self,
    counted (failures self) failures
            (validate_items_from cn ev re vb i items self).
Proof.
  induction items as [|line rest IH]; intros i self; simpl.
  - by apply counted_ret.
  - eapply counted_bind; [apply counted_validate_item | auto].
Qed.

Lemma counted_validate_list items cn ev re vb self :
  counted (failures self) failures
          (_validate_list_of_items items cn ev re vb self).
Proof.
  unfold _validate_list_of_items. destruct items.
  - walk counted_prim.
  - apply counted_validate_items_from.
Qed.

Ltac counted_list :=
  match goal with
  | |- counted _ _ (_validate_list_of_items ?items ?cn ?ev ?re ?vb ?s) =>
      exact (counted_validate_list items cn ev re vb s)
  end.

Lemma counted_check_models h e self :
  counted (failures self) failures (_check_models h e self).
Proof.
  unfold _check_models, nvidia_check_models, amd_check_models,
    intel_check_models.
  walk ltac:(first [ counted_list | counted_prim ]).
Qed.

Lemma counted_check_vbios h e self :
  counted (failures self) failures (_check_vbios h e self).
Proof.
  unfold _check_vbios, nvidia_check_vbios, amd_check_vbios,
    intel_check_vbios.
  walk ltac:(first [ counted_list | counted_prim ]).
Qed.

Lemma counted_validate h self :
  counted (failures self) contribution (validate h self).
Proof.
  unfold validate, validate_missing_key, contribution.
  walk ltac:(first
    [ counted_prim
    | eapply counted_bind;
      [ first [apply counted_check_models | apply counted_check_vbios] |] ]).
Qed.

Lemma counted_run_validator h v gs f0 :
  counted f0 (fun n => n) (run_validator h v gs f0).
Proof.
  unfold run_validator.
  apply counted_quiet_bind; [auto with quiet |].
  intros [v0|]; [| by apply counted_ret].
  intros w. unfold bind.
  destruct (counted_validate h v0 w) as [H1 H2].
  destruct (validate h v0 w) as [[ok s] w1].
  unfold contribution in *. simpl in *. destruct ok; simpl; lia.
Qed.

Lemma counted_run_validation h m c :
  counted 0 (fun n => n) (run_validation h m c).
Proof.
  unfold run_validation, vendor_not_defined, gpu_spec_not_defined.
  walk ltac:(first [ apply counted_run_validator | counted_prim ]).
Qed.

End Counted.

(** ** The run does not look at the report identifier *)

Section IdBlind.

Lemma id_blind_ret {A} (a : A) : id_blind (ret a).
Proof. done. Qed.

Lemma id_blind_print t : id_blind (print t).
Proof. done. Qed.

Lemma id_blind_log_msg t b : id_blind (log_msg t b).
Proof. done. Qed.

Lemma id_blind_add_check c s e a n : id_blind (add_check_to_report c s e a n).
Proof. done. Qed.

Lemma id_blind_set_system_model m : id_blind (set_system_model m).
Proof. done. Qed.

Lemma id_blind_set_status s : id_blind (set_status s).
Proof. done. Qed.

Lemma id_blind_dump : id_blind dump.
Proof. done. Qed.

Lemma id_blind_bind {A B} (m : M A) (k : A -> M B) :
  id_blind m -> (forall a, id_blind (k a)) -> id_blind (bind m k).
Proof.
  intros Hm Hk i w. unfold bind. rewrite Hm.
  destruct (m w) as [a w1]. simpl. apply Hk.
Qed.

Ltac blind_prim :=
  first [ apply id_blind_ret | apply id_blind_print | apply id_blind_log_msg
        | apply id_blind_add_check | apply id_blind_set_system_model
        | apply id_blind_set_status | apply id_blind_dump
        | apply id_blind_bind ].

Lemma id_blind_run_command h c : id_blind (run_command h c).
Proof. unfold run_command. walk blind_prim. Qed.

Lemma id_blind_validate_item cn ev re vb i line self :
  id_blind (validate_item cn ev re vb i line self).
Proof. unfold validate_item. walk blind_prim. Qed.

Lemma id_blind_validate_items_from cn ev re vb items :
  forall i self, id_blind (validate_items_from cn ev re vb i items self).
Proof.
  induction items as [|line rest IH]; intros i self; simpl.
  - apply id_blind_ret.
  - apply id_blind_bind; [apply id_blind_validate_item | auto].
Qed.

Lemma id_blind_validate_list items cn ev re vb self :
  id_blind (_validate_list_of_items items cn ev re vb self).
Proof.
  unfold _validate_list_of_items. destruct items.
  - walk blind_prim.
  - apply id_blind_validate_items_from.
Qed.

Ltac blind_ops :=
  first [ apply id_blind_run_command | apply id_blind_validate_list
        | blind_prim ].

Lemma id_blind_check_models h e self : id_blind (_check_models h e self).
Proof.
  unfold _check_models, nvidia_check_models, amd_check_models,
    intel_check_models.
  walk blind_ops.
Qed.

Lemma id_blind_check_vbios h e self : id_blind (_check_vbios h e self).
Proof.
  unfold _check_vbios, nvidia_check_vbios, amd_check_vbios,
    intel_check_vbios.
  walk blind_ops.
Qed.

Lemma id_blind_validate h self : id_blind (validate h self).
Proof.
  unfold validate, validate_missing_key.
  walk ltac:(first [ apply id_blind_check_models
                   | apply id_blind_check_vbios | blind_prim ]).
Qed.

Lemma id_blind_run_validation h m c : id_blind (run_validation h m c).
Proof.
  unfold run_validation, run_validator, get_validator, vendor_not_defined,
    gpu_spec_not_defined.
  walk ltac:(first [ apply id_blind_validate | blind_prim ]).
Qed.

Lemma id_blind_main h : id_blind (main h).
Proof.
  unfold main, get_system_model, system_model_unreadable, load_config,
    write_report, print_final_result.
  walk ltac:(first [ apply id_blind_run_command
                   | apply id_blind_run_validation | blind_prim ]).
Qed.

End IdBlind.

(** ** What the phases before finalization leave alone *)

Section KeepsVerdict.

Lemma keeps_verdict_ret {A} (a : A) : keeps_verdict (ret a).
Proof. done. Qed.

Lemma keeps_verdict_print t : keeps_verdict (print t).
Proof. done. Qed.

Lemma keeps_verdict_log_msg t b : keeps_verdict (log_msg t b).
Proof. done. Qed.

Lemma keeps_verdict_add_check c s e a n :
  keeps_verdict (add_check_to_report c s e a n).
Proof. done. Qed.

Lemma keeps_verdict_set_system_model m : keeps_verdict (set_system_model m).
Proof. done. Qed.

Lemma keeps_verdict_bind {A B} (m : M A) (k : A -> M B) :
  keeps_verdict m -> (forall a, keeps_verdict (k a)) -> keeps_verdict (bind m k).
Proof.
  intros Hm Hk w. unfold bind. destruct (Hm w) as [H1 H2].
  destruct (m w) as [a w1]. simpl in *.
  destruct (Hk a w1) as [H3 H4]. split; congruence.
Qed.

Ltac kv_prim :=
  first [ apply keeps_verdict_ret | apply keeps_verdict_print
        | apply keeps_verdict_log_msg | apply keeps_verdict_add_check
        | apply keeps_verdict_set_system_model | apply keeps_verdict_bind ].

Lemma keeps_verdict_validate_items_from cn ev re vb items :
  forall i self, keeps_verdict (validate_items_from cn ev re vb i items self).
Proof.
  induction items as [|line rest IH]; intros i self; simpl.
  - apply keeps_verdict_ret.
  - apply keeps_verdict_bind; [| auto].
    unfold validate_item. walk kv_prim.
Qed.

Lemma keeps_verdict_validate h self : keeps_verdict (validate h self).
Proof.
  unfold validate, validate_missing_key, _check_models, _check_vbios,
    nvidia_check_models, nvidia_check_vbios, amd_check_models,
    amd_check_vbios, intel_check_models, intel_check_vbios,
    _validate_list_of_items, run_command.
  walk ltac:(first [ apply keeps_verdict_validate_items_from | kv_prim ]).
Qed.

Lemma keeps_verdict_run_validation h m c :
  keeps_verdict (run_validation h m c).
Proof.
  unfold run_validation, run_validator, get_validator, vendor_not_defined,
    gpu_spec_not_defined.
  walk ltac:(first [ apply keeps_verdict_validate | kv_prim ]).
Qed.

Lemma keeps_verdict_get_system_model h : keeps_verdict (get_system_model h).
Proof.
  unfold get_system_model, system_model_unreadable, run_command.
  walk kv_prim.
Qed.

Lemma keeps_verdict_load_config h p : keeps_verdict (load_config h p).
Proof. unfold load_config. walk kv_prim. Qed.

End KeepsVerdict.

(** A model that was read and a configuration that was loaded left no
    entry in the ledger. *)
Lemma get_system_model_Some h w m :
  (get_system_model h w).1 = Some m -> checks (get_system_model h w).2 = checks w.
Proof.
  unfold get_system_model, system_model_unreadable, run_command, bind.
  simpl. destruct (subprocess_run h _); simpl; try done.
  destruct (String.eqb _ _); simpl; done.
Qed.

Lemma load_config_Some h p w c :
  (load_config h p w).1 = Some c -> checks (load_config h p w).2 = checks w.
Proof. unfold load_config. destruct (safe_load h p); simpl; done. Qed.

(** Finalization: the status is decided by the count, and a file that is
    written holds the dictionary as it then stands. *)
Lemma write_report_spec h n w :
  let w' := (write_report h n w).2 in
  checks w' = checks w
  /\ report_status (report_data w') = (if Nat.eqb n 0 then PASS else FAIL)
  /\ (report_file w' = report_file w \/ report_file w' = Some (report_data w')).
Proof.
  unfold write_report, bind.
  destruct (Nat.eqb n 0); simpl;
    destruct (dump_report h _); simpl; auto;
    destruct (dump_fallback h _); simpl; auto.
Qed.

Lemma print_final_result_world n m w :
  report_data (print_final_result n m w).2 = report_data w
  /\ report_file (print_final_result n m w).2 = report_file w.
Proof. unfold print_final_result, bind. simpl. by destruct (Nat.eqb n 0). Qed.

(** The verdict of a run from a fresh world. *)
Lemma main_verdict h w :
  checks w = [] -> report_file w = None ->
  report_status (report_data w) = FAIL ->
  let w' := (main h w).2 in
  (report_status (report_data w') = PASS -> count_fail (checks w') = 0)
  /\ (forall r, report_file w' = Some r -> r = report_data w').
Proof.
  intros Hc Hf Hs. unfold main, bind.
  pose proof (keeps_verdict_get_system_model h w) as [Hf1 Hs1].
  pose proof (get_system_model_Some h w) as Hc1.
  destruct (get_system_model h w) as [[m|] w1]; simpl in *;
    [| split; [congruence | intros r; congruence]].
  destruct (negb (negb (String.eqb m ""))); simpl;
    [split; [congruence | intros r; congruence] |].
  pose proof (keeps_verdict_load_config h CONFIG_FILE_PATH w1) as [Hf2 Hs2].
  pose proof (load_config_Some h CONFIG_FILE_PATH w1) as Hc2.
  destruct (load_config h CONFIG_FILE_PATH w1) as [[c|] w2]; simpl in *;
    [| split; [congruence | intros r; congruence]].
  case_bool_decide; simpl; [split; [congruence | intros r; congruence] |].
  pose proof (keeps_verdict_run_validation h m c w2) as [Hf3 Hs3].
  pose proof (counted_run_validation h m c w2) as [_ Hn].
  destruct (run_validation h m c w2) as [n w3]; simpl in *.
  pose proof (write_report_spec h n w3) as (Hc4 & Hs4 & Hf4).
  destruct (write_report h n w3) as [[] w4]; simpl in *.
  pose proof (print_final_result_world n m w4) as [Hd5 Hf5].
  unfold checks in *. rewrite Hd5, Hf5. split.
  - rewrite Hs4. destruct (Nat.eqb_spec n 0); [| done].
    intros _. rewrite Hc4, (Hc2 c eq_refl), (Hc1 m eq_refl), Hc in *.
    simpl in Hn. lia.
  - intros r Hr. destruct Hf4 as [Hf4|Hf4]; congruence.
Qed.

Example gpu_indexed_examples :
  gpu_indexed "GPU_0_Model" = true /\ gpu_indexed "GPU_12_VBIOS" = true
  /\ gpu_indexed "GPU_Vendor" = false /\ gpu_indexed "GPU_Spec" = false.
Proof. repeat split; reflexivity. Qed.

Example nvidia_ok_run :
  (run nvidia_ok_host "T").1 = 0
  /\ report_status (report_data (run nvidia_ok_host "T").2) = PASS
  /\ List.map component (checks (run nvidia_ok_host "T").2)
     = ["GPU_Vendor"; "GPU_0_Model"; "GPU_0_VBIOS"].
Proof. vm_compute. done. Qed.

Example nvidia_wrong_vbios_run :
  (run nvidia_wrong_vbios_host "T").1 = 1
  /\ report_status (report_data (run nvidia_wrong_vbios_host "T").2) = FAIL
  /\ checks (run nvidia_wrong_vbios_host "T").2 !! 2
     = Some (mkCheck "GPU_0_VBIOS" FAIL
                     (PList ["96.00.41.00.01"; "96.00.40.00.05"])
                     "99.99.99.99.99" "").
Proof. vm_compute. done. Qed.

Example amd_ok_run :
  (run amd_ok_host "T").1 = 0
  /\ List.map (fun c => (component c, status c)) (checks (run amd_ok_host "T").2)
     = [("GPU_Vendor", PASS); ("GPU_0_Model", PASS); ("GPU_0_VBIOS", PASS)].
Proof. vm_compute. done. Qed.

Example no_config_run :
  (run no_config_host "T").1 = 1
  /\ report_file (run no_config_host "T").2 = None
  /\ List.map component (checks (run no_config_host "T").2) = ["YAML_Load"].
Proof. vm_compute. done. Qed.

Example bom_mismatch_run :
  (run bom_mismatch_host "T").1 = 1
  /\ checks (run bom_mismatch_host "T").2
     = [mkCheck "GPU_Vendor" FAIL (PStr "nvidia") "amd" ""].
Proof. vm_compute. done. Qed.

(** ** The item-list routine *)

Lemma validate_item_checks cn ev re vb i line self w :
  checks (validate_item cn ev re vb i line self w).2
  = checks w ++ [item_check cn ev re vb i line].
Proof.
  unfold validate_item, item_check.
  destruct (Re.search re line) as [g|]; [| done].
  cbv zeta. by destruct (if vb then _ else _).
Qed.

Lemma validate_items_from_checks cn ev re vb items :
  forall i self w,
    checks (validate_items_from cn ev re vb i items self w).2
    = checks w ++ imap (fun j line => item_check cn ev re vb (i + j) line) items.
Proof.
  induction items as [|line rest IH]; intros i self w; simpl.
  - by rewrite app_nil_r.
  - unfold bind.
    pose proof (validate_item_checks cn ev re vb i line self w) as H1.
    destruct (validate_item cn ev re vb i line self w) as [self1 w1].
    simpl in H1. rewrite IH, H1, <- app_assoc. simpl.
    rewrite Nat.add_0_r. do 2 f_equal.
    apply imap_ext. intros j x _. simpl. f_equal. lia.
Qed.

(** C4, as the code has it.  Called with an empty [items] the item-list
    routine records nothing in the report: the failure is only counted (the
    failure counter goes up by exactly 1) and printed as the one error line
    "Command returned no items for <check_name>."; the loop is not entered
    and no CheckResult at all is appended. *)
Theorem empty_items_one_failure cn ev re vb self w :
  let r := _validate_list_of_items [] cn ev re vb self w in
  failures r.1 = failures self + 1
  /\ checks r.2 = checks w
  /\ stdout r.2
     = stdout w ++ [[Txt "[FAIL]"; Txt " ";
                     Txt "  [FAIL] Command returned no items for ";
                     Txt cn; Txt "."]].
Proof. done. Qed.

(** C4 as stated fails on the empty list with check name "Model": the
    counter goes from 0 to 1 but no failure is recorded in the report (the
    ledger stays empty, so no FAIL entry entered it), and the line printed
    is not "Model returned no items". *)
Lemma empty_items_nothing_recorded :
  let w := initial_world "T" in
  let r := _validate_list_of_items [] "Model" (PStr "NVIDIA H100 80GB PCIe")
                                   Re.nvidia_model false
                                   (new_validator Nvidia nvidia_spec) w in
  failures r.1 = 1
  /\ checks r.2 = []
  /\ ~ fail_recorded w r.2
  /\ stdout r.2 = [[Txt "[FAIL]"; Txt " ";
                    Txt "  [FAIL] Command returned no items for ";
                    Txt "Model"; Txt "."]].
Proof.
  repeat split; try reflexivity. unfold fail_recorded. vm_compute. lia.
Qed.

(** C5. For a non-empty [items] the item-list routine appends exactly one
    CheckResult per line, in line order: the entry at position [i] of what
    was appended is the one made from line [i], and its component is
    "GPU_<i>_<check_name>" with [i] the zero-based index in decimal. *)
Theorem one_check_per_line items cn ev re vb self w :
  items <> [] ->
  exists new,
    checks (_validate_list_of_items items cn ev re vb self w).2
    = checks w ++ new
    /\ length new = length items
    /\ forall i line,
         items !! i = Some line ->
         exists c,
           new !! i = Some c
           /\ c = item_check cn ev re vb i line
           /\ component c = "GPU_" +:+ PyStr.of_nat i +:+ "_" +:+ cn.
Proof.
  intros Hne. destruct items as [|l0 rest]; [done |].
  unfold _validate_list_of_items. rewrite validate_items_from_checks.
  eexists. split; [reflexivity |]. split; [by rewrite length_imap |].
  intros i line Hi. rewrite list_lookup_imap, Hi. simpl.
  eexists. split; [reflexivity |]. split; [done |].
  unfold item_check. destruct (Re.search re line); done.
Qed.

Lemma one_check_per_line_witness :
  ["GPU 0: NVIDIA H100 80GB PCIe (UUID: a)"; "no such line"] <> []
  /\ exists new,
       checks (_validate_list_of_items
                 ["GPU 0: NVIDIA H100 80GB PCIe (UUID: a)"; "no such line"]
                 "Model" (PStr "NVIDIA H100 80GB PCIe") Re.nvidia_model false
                 (new_validator Nvidia nvidia_spec) (initial_world "T")).2
       = checks (initial_world "T") ++ new
       /\ length new = 2
       /\ forall i line,
            ["GPU 0: NVIDIA H100 80GB PCIe (UUID: a)"; "no such line"] !! i
            = Some line ->
            exists c,
              new !! i = Some c
              /\ c = item_check "Model" (PStr "NVIDIA H100 80GB PCIe")
                                Re.nvidia_model false i line
              /\ component c = "GPU_" +:+ PyStr.of_nat i +:+ "_" +:+ "Model".
Proof.
  split; [discriminate |].
  apply (one_check_per_line
           ["GPU 0: NVIDIA H100 80GB PCIe (UUID: a)"; "no such line"]
           "Model" (PStr "NVIDIA H100 80GB PCIe") Re.nvidia_model false
           (new_validator Nvidia nvidia_spec) (initial_world "T")).
  discriminate.
Defined.

Example item_list_two_lines :
  checks (_validate_list_of_items
            ["GPU 0: NVIDIA H100 80GB PCIe (UUID: a)"; "no such line"]
            "Model" (PStr "NVIDIA H100 80GB PCIe") Re.nvidia_model false
            (new_validator Nvidia nvidia_spec) (initial_world "T")).2
  = [mkCheck "GPU_0_Model" PASS (PStr "NVIDIA H100 80GB PCIe")
             "NVIDIA H100 80GB PCIe" "";
     mkCheck "GPU_1_Model" FAIL (PStr "NVIDIA H100 80GB PCIe")
             "Parse Error" "no such line"].
Proof. vm_compute. done. Qed.

(** ** Vendor validators *)

Lemma validate_items_from_keeps cn ev re vb items :
  forall i self w,
    let self' := (validate_items_from cn ev re vb i items self w).1 in
    kind self' = kind self /\ gpu_count self' = gpu_count self.
Proof.
  induction items as [|line rest IH]; intros i self w; simpl; [done |].
  unfold bind.
  assert (kind (validate_item cn ev re vb i line self w).1 = kind self
          /\ gpu_count (validate_item cn ev re vb i line self w).1
             = gpu_count self) as [Hk Hg].
  { unfold validate_item. destruct (Re.search re line); [| done].
    cbv zeta. by destruct (if vb then _ else _). }
  destruct (validate_item cn ev re vb i line self w) as [self1 w1].
  simpl in *. destruct (IH (S i) self1 w1) as [Hk' Hg']. split; congruence.
Qed.

Lemma validate_list_keeps items cn ev re vb self w :
  let self' := (_validate_list_of_items items cn ev re vb self w).1 in
  kind self' = kind self /\ gpu_count self' = gpu_count self.
Proof.
  unfold _validate_list_of_items. destruct items; [done |].
  apply validate_items_from_keeps.
Qed.

(** The AMD model check stores the number of non-blank model lines. *)
Lemma amd_check_models_gpu_count h e self w mout :
  kind self = Amd ->
  subprocess_run h "rocm-smi --showproductname" = Completed mout ->
  let self' := (_check_models h e self w).1 in
  kind self' = Amd
  /\ gpu_count self' = length (nonblank_lines (PyStr.strip mout)).
Proof.
  intros Hk Hm. unfold _check_models. rewrite Hk.
  unfold amd_check_models, bind, run_command. rewrite Hm. simpl.
  match goal with
  | |- context [_validate_list_of_items ?it ?cn ?ev ?re ?vb ?s ?w0] =>
      destruct (validate_list_keeps it cn ev re vb s w0) as [H1 H2]
  end.
  simpl in *. split; congruence.
Qed.

(** The AMD VBIOS check against the stored count. *)
Lemma amd_check_vbios_mismatch h e self w vout :
  kind self = Amd ->
  subprocess_run h "rocm-smi --showvbios" = Completed vout ->
  length (nonblank_lines (PyStr.strip vout)) <> gpu_count self ->
  let r := _check_vbios h e self w in
  failures r.1 = failures self + 1
  /\ checks r.2 = checks w
  /\ stdout r.2
     = stdout w
       ++ [[Txt "[INFO]"; Txt " "; Txt "Checking GPU VBIOS Versions..."];
           [Txt "[FAIL]"; Txt " "; Txt "  [FAIL] VBIOS count (";
            Txt (PyStr.of_nat (length (nonblank_lines (PyStr.strip vout))));
            Txt ") does not match GPU count (";
            Txt (PyStr.of_nat (gpu_count self)); Txt ")."]].
Proof.
  intros Hk Hv Hne. unfold _check_vbios. rewrite Hk.
  unfold amd_check_vbios, bind, run_command. rewrite Hv. simpl.
  destruct (Nat.eqb_spec (length (nonblank_lines (PyStr.strip vout)))
                         (gpu_count self)) as [Heq|_]; [done |].
  simpl. by rewrite <- app_assoc.
Qed.

(** Whatever the product listing command answers, the count the AMD
    validator holds afterwards is [model_lines_found]. *)
Lemma amd_check_models_count h e self w :
  kind self = Amd ->
  let self' := (_check_models h e self w).1 in
  kind self' = Amd /\ gpu_count self' = model_lines_found h self.
Proof.
  intros Hk. unfold model_lines_found.
  destruct (subprocess_run h "rocm-smi --showproductname") as [mout|err|]
    eqn:Hm.
  - by apply amd_check_models_gpu_count.
  - unfold _check_models. rewrite Hk.
    unfold amd_check_models, bind, run_command. rewrite Hm. done.
  - unfold _check_models. rewrite Hk.
    unfold amd_check_models, bind, run_command. rewrite Hm. done.
Qed.

(** C3, as the code has it.  AMD validator: when the number of non-blank
    VBIOS lines differs from the number of model lines the model check left
    in [gpu_count], the mismatch is only counted and printed: the failure
    counter goes up by exactly 1 and one dedicated error line names both
    counts, but no CheckResult is appended, so no FAIL for the mismatch
    enters the report.  The line-by-line comparison is skipped: the ledger
    is as the model check left it, without any GPU_<i>_VBIOS entry. *)
Theorem amd_count_mismatch_only_counted h em ev self w vout :
  kind self = Amd ->
  subprocess_run h "rocm-smi --showvbios" = Completed vout ->
  length (nonblank_lines (PyStr.strip vout)) <> model_lines_found h self ->
  let r1 := _check_models h em self w in
  let r2 := _check_vbios h ev r1.1 r1.2 in
  failures r2.1 = failures r1.1 + 1
  /\ checks r2.2 = checks r1.2
  /\ ~ fail_recorded r1.2 r2.2
  /\ stdout r2.2
     = stdout r1.2
       ++ [[Txt "[INFO]"; Txt " "; Txt "Checking GPU VBIOS Versions..."];
           [Txt "[FAIL]"; Txt " "; Txt "  [FAIL] VBIOS count (";
            Txt (PyStr.of_nat (length (nonblank_lines (PyStr.strip vout))));
            Txt ") does not match GPU count (";
            Txt (PyStr.of_nat (model_lines_found h self)); Txt ")."]].
Proof.
  intros Hk Hv Hne r1 r2.
  destruct (amd_check_models_count h em self w Hk) as [Hk1 Hg1].
  fold r1 in Hk1, Hg1. rewrite <- Hg1 in Hne |- *.
  destruct (amd_check_vbios_mismatch h ev r1.1 r1.2 vout Hk1 Hv Hne)
    as (H1 & H2 & H3).
  fold r2 in H1, H2, H3. repeat split; try done.
  unfold fail_recorded. rewrite H2. lia.
Qed.

Lemma amd_count_mismatch_only_counted_witness :
  let h := amd_two_models_one_vbios_host in
  let self := new_validator Amd amd_spec in
  let r1 := _check_models h (PStr "AMD Instinct MI300X") self
                          (initial_world "T") in
  let r2 := _check_vbios h (PList ["123.456.789.001"; "123.456.789.000"])
                         r1.1 r1.2 in
  failures r2.1 = failures r1.1 + 1
  /\ checks r2.2 = checks r1.2
  /\ ~ fail_recorded r1.2 r2.2
  /\ stdout r2.2
     = stdout r1.2
       ++ [[Txt "[INFO]"; Txt " "; Txt "Checking GPU VBIOS Versions..."];
           [Txt "[FAIL]"; Txt " "; Txt "  [FAIL] VBIOS count (";
            Txt (PyStr.of_nat
                   (length (nonblank_lines
                              (PyStr.strip
                                 "Card #0: VBIOS version: 123.456.789.001"))));
            Txt ") does not match GPU count (";
            Txt (PyStr.of_nat (model_lines_found h self)); Txt ")."]].
Proof.
  exact (amd_count_mismatch_only_counted amd_two_models_one_vbios_host
           (PStr "AMD Instinct MI300X")
           (PList ["123.456.789.001"; "123.456.789.000"])
           (new_validator Amd amd_spec) (initial_world "T")
           "Card #0: VBIOS version: 123.456.789.001"
           eq_refl eq_refl ltac:(vm_compute; lia)).
Defined.

(** C3 as stated fails on the AMD server that lists two cards and one
    VBIOS line: the VBIOS check raises the counter by 1, but no FAIL is
    recorded for the mismatch; after the whole validation the ledger holds
    the two PASS model entries only. *)
Lemma count_mismatch_records_no_fail :
  let h := amd_two_models_one_vbios_host in
  let r1 := _check_models h (PStr "AMD Instinct MI300X")
                          (new_validator Amd amd_spec) (initial_world "T") in
  let r2 := _check_vbios h (PList ["123.456.789.001"; "123.456.789.000"])
                         r1.1 r1.2 in
  failures r1.1 = 0 /\ failures r2.1 = 1
  /\ ~ fail_recorded r1.2 r2.2
  /\ List.map (fun c => (component c, status c)) (checks r2.2)
     = [("GPU_0_Model", PASS); ("GPU_1_Model", PASS)].
Proof.
  repeat split; try reflexivity. unfold fail_recorded. vm_compute. lia.
Qed.

(** C9. NVIDIA validator: when the inventory command succeeds with an
    output that is empty once trimmed, the split yields the single line ""
    and the empty-items branch is not taken; the line does not parse, so
    exactly one entry GPU_0_Model with status FAIL and actual "Parse Error"
    is appended and the failure counter goes up by 1. *)
Theorem nvidia_empty_inventory_parse_error h e self w out :
  kind self = Nvidia ->
  subprocess_run h "nvidia-smi -L" = Completed out ->
  PyStr.strip out = "" ->
  let r := _check_models h e self w in
  checks r.2 = checks w ++ [mkCheck "GPU_0_Model" FAIL e "Parse Error" ""]
  /\ failures r.1 = failures self + 1.
Proof.
  intros Hk Hc Hs. unfold _check_models. rewrite Hk.
  unfold nvidia_check_models, bind, run_command. rewrite Hc. simpl.
  rewrite Hs. done.
Qed.

Lemma nvidia_empty_inventory_parse_error_witness :
  let r := _check_models nvidia_blank_host (PStr "NVIDIA H100 80GB PCIe")
                         (new_validator Nvidia nvidia_spec)
                         (initial_world "T") in
  checks r.2
  = checks (initial_world "T")
    ++ [mkCheck "GPU_0_Model" FAIL (PStr "NVIDIA H100 80GB PCIe")
                "Parse Error" ""]
  /\ failures r.1 = failures (new_validator Nvidia nvidia_spec) + 1.
Proof.
  exact (nvidia_empty_inventory_parse_error nvidia_blank_host
           (PStr "NVIDIA H100 80GB PCIe") (new_validator Nvidia nvidia_spec)
           (initial_world "T") "   " eq_refl eq_refl eq_refl).
Defined.

(** What the two vendors do when the command runner answers [None]. *)
Lemma nvidia_models_runner_none h e self w :
  kind self = Nvidia ->
  (run_command h "nvidia-smi -L" w).1 = None ->
  let r := _check_models h e self w in
  checks r.2 = checks w /\ failures r.1 = failures self + 1.
Proof.
  intros Hk Hc. unfold _check_models. rewrite Hk.
  unfold nvidia_check_models, bind. simpl.
  pose proof (quiet_run_command h "nvidia-smi -L") as Hq.
  match goal with
  | |- context [run_command h "nvidia-smi -L" ?w0] =>
      specialize (Hq w0);
      assert ((run_command h "nvidia-smi -L" w0).1 = None) as Hc0
        by (revert Hc; unfold run_command;
            destruct (subprocess_run h "nvidia-smi -L"); done);
      destruct (run_command h "nvidia-smi -L" w0) as [o w1]
  end.
  simpl in *. subst o. done.
Qed.

Lemma amd_models_runner_none h e self w :
  kind self = Amd ->
  (run_command h "rocm-smi --showproductname" w).1 = None ->
  let r := _check_models h e self w in
  checks r.2
  = checks w ++ [mkCheck "ROCM_SMI_MODEL" FAIL (PStr "Command to run")
                         "Command failed" ""]
  /\ failures r.1 = failures self + 1.
Proof.
  intros Hk Hc. unfold _check_models. rewrite Hk.
  unfold amd_check_models, bind. simpl.
  pose proof (quiet_run_command h "rocm-smi --showproductname") as Hq.
  match goal with
  | |- context [run_command h "rocm-smi --showproductname" ?w0] =>
      specialize (Hq w0);
      assert ((run_command h "rocm-smi --showproductname" w0).1 = None) as Hc0
        by (revert Hc; unfold run_command;
            destruct (subprocess_run h "rocm-smi --showproductname"); done);
      destruct (run_command h "rocm-smi --showproductname" w0) as [o w1]
  end.
  simpl in *. subst o. simpl. unfold checks in *. simpl. by rewrite Hq.
Qed.

(** C2, at its failing input.  On the NVIDIA server whose inventory command
    exits with an error the model check raises the failure counter by 1 and
    appends nothing to the ledger; on the AMD server in the same situation
    the model check appends the one FAIL entry ROCM_SMI_MODEL. *)
Theorem nvidia_command_failure_leaves_no_entry :
  let rn := _check_models nvidia_broken_host (PStr "NVIDIA H100 80GB PCIe")
                          (new_validator Nvidia nvidia_spec)
                          (initial_world "T") in
  let ra := _check_models amd_broken_host (PStr "AMD Instinct MI300X")
                          (new_validator Amd amd_spec) (initial_world "T") in
  (run_command nvidia_broken_host "nvidia-smi -L" (initial_world "T")).1 = None
  /\ failures rn.1 = 1 /\ checks rn.2 = []
  /\ (run_command amd_broken_host "rocm-smi --showproductname"
                  (initial_world "T")).1 = None
  /\ failures ra.1 = 1
  /\ checks ra.2 = [mkCheck "ROCM_SMI_MODEL" FAIL (PStr "Command to run")
                            "Command failed" ""].
Proof. vm_compute. done. Qed.

(** ** The orchestrator *)

Lemma detect_tool_recognized h v :
  detect_tool h = Some v -> v = "nvidia" \/ v = "amd" \/ v = "intel".
Proof.
  unfold detect_tool.
  repeat match goal with
         | |- context [which h ?t] => destruct (which h t)
         end; naive_solver.
Qed.

(** C6. When the tool detected on the host is not the declared vendor
    (no tool at all included), [run_validation] appends the single entry
    GPU_Vendor with status FAIL and returns 1: nothing after it is
    attempted, and no entry of the shape GPU_<i>_... is appended. *)
Theorem vendor_mismatch_stops_run h m c ms v w :
  c !! m = Some ms ->
  expected_gpu_vendor ms = Some v ->
  v <> "" ->
  detect_tool h <> Some v ->
  let r := run_validation h m c w in
  r.1 = 1
  /\ exists new,
       checks r.2 = checks w ++ new
       /\ new = [mkCheck "GPU_Vendor" FAIL (PStr v) (str_tool (detect_tool h)) ""]
       /\ Forall (fun k => gpu_indexed (component k) = false) new.
Proof.
  intros Hm Hv Hne Ht. unfold run_validation. rewrite Hm, Hv. cbv zeta.
  destruct (String.eqb_spec v "") as [|_]; [done |].
  rewrite bool_decide_eq_false_2 by done. simpl.
  split; [done |]. eexists. split; [reflexivity |]. split; [done |].
  by repeat constructor.
Qed.

Lemma vendor_mismatch_stops_run_witness :
  let r := run_validation bom_mismatch_host "SYS-421GU-TNXR" golden
                          (initial_world "T") in
  r.1 = 1
  /\ exists new,
       checks r.2 = checks (initial_world "T") ++ new
       /\ new = [mkCheck "GPU_Vendor" FAIL (PStr "nvidia")
                         (str_tool (detect_tool bom_mismatch_host)) ""]
       /\ Forall (fun k => gpu_indexed (component k) = false) new.
Proof.
  apply (vendor_mismatch_stops_run bom_mismatch_host "SYS-421GU-TNXR" golden
           (mkModelSpec (Some "nvidia") (Some nvidia_spec)) "nvidia"
           (initial_world "T")).
  - vm_compute. reflexivity.
  - reflexivity.
  - discriminate.
  - vm_compute. discriminate.
Defined.




(** ** Whole runs *)

(** C8. Two runs on the same host and baseline, started at different
    times, end with the same exit code, print the same lines, and leave
    reports (in memory, and in the file when one is written) that agree on
    status, system_model and the whole checks_performed sequence: they can
    differ in [report_id] only. *)
Theorem rerun_same_report h now1 now2 :
  let r1 := run h now1 in
  let r2 := run h now2 in
  r1.1 = r2.1
  /\ stdout r1.2 = stdout r2.2
  /\ same_except_id (report_data r1.2) (report_data r2.2)
  /\ option_Forall2 same_except_id (report_file r1.2) (report_file r2.2).
Proof.
  unfold run.
  change (initial_world now2)
    with (relabel ("validation_report_" +:+ now2) (initial_world now1)).
  rewrite id_blind_main. simpl.
  destruct (main h (initial_world now1)) as [code w]. simpl.
  repeat split. destruct (report_file w); by constructor.
Qed.

(** A prefix keeps every entry at its index. *)
Lemma append_only_lookup {A} (m : M A) w i c :
  append_only m -> checks w !! i = Some c -> checks (m w).2 !! i = Some c.
Proof.
  intros Hm Hi. eapply prefix_lookup_Some; [exact Hi | apply Hm].
Qed.

(** C10. The ledger is append-only: after every operation of the script
    the old [checks_performed] is a prefix of the new one (so an entry,
    once appended, stays at its index unchanged), and the failure counter
    of a validator, like the local count of the orchestrator, never
    decreases. *)
Theorem ledger_append_only :
  (forall c s e a n, append_only (add_check_to_report c s e a n))
  /\ (forall t b, append_only (log_msg t b))
  /\ (forall h c, append_only (run_command h c))
  /\ (forall items cn ev re vb self,
        append_only (_validate_list_of_items items cn ev re vb self)
        /\ counter_monotone self (_validate_list_of_items items cn ev re vb self))
  /\ (forall h e self,
        append_only (_check_models h e self)
        /\ counter_monotone self (_check_models h e self))
  /\ (forall h e self,
        append_only (_check_vbios h e self)
        /\ counter_monotone self (_check_vbios h e self))
  /\ (forall h self,
        append_only (validate h self)
        /\ forall w, failures self <= failures (validate h self w).1.2)
  /\ (forall v gs, append_only (get_validator v gs))
  /\ (forall h v gs f0,
        append_only (run_validator h v gs f0)
        /\ forall w, f0 <= (run_validator h v gs f0 w).1)
  /\ (forall h, append_only (get_system_model h))
  /\ (forall h p, append_only (load_config h p))
  /\ (forall h m c, append_only (run_validation h m c))
  /\ (forall h n, append_only (write_report h n))
  /\ (forall n m, append_only (print_final_result n m))
  /\ (forall h, append_only (main h)).
Proof.
  repeat apply conj; intros; repeat apply conj; intros.
  - apply append_only_add_check.
  - apply append_only_quiet; auto with quiet.
  - apply append_only_quiet; auto with quiet.
  - apply append_only_validate_list.
  - intros w. apply counted_validate_list.
  - apply append_only_check_models.
  - intros w. apply counted_check_models.
  - apply append_only_check_vbios.
  - intros w. apply counted_check_vbios.
  - apply append_only_validate.
  - destruct (counted_validate h self w) as [H _].
    unfold contribution in H. destruct (validate h self w).1.1; lia.
  - apply append_only_quiet; auto with quiet.
  - apply append_only_run_validator.
  - apply counted_run_validator.
  - apply append_only_get_system_model.
  - apply append_only_load_config.
  - apply append_only_run_validation.
  - apply append_only_write_report.
  - apply append_only_quiet; auto with quiet.
  - apply append_only_main.
Qed.

(** C1, as the code has it.  In the report a run ends with, in memory and
    in the file it writes, a status PASS means that no entry of
    [checks_performed] has status FAIL: any FAIL entry forces the overall
    status FAIL. *)
Theorem pass_report_has_no_fail h now r :
  report_file (run h now).2 = Some r \/ r = report_data (run h now).2 ->
  report_status r = PASS ->
  Forall (fun c => status c <> FAIL) (checks_performed r).
Proof.
  intros Hr Hp.
  destruct (main_verdict h (initial_world now) eq_refl eq_refl eq_refl)
    as [H1 H2].
  fold (run h now) in H1, H2.
  assert (r = report_data (run h now).2) as ->
    by (destruct Hr as [Hr|Hr]; [by apply H2 | done]).
  apply count_fail_zero, H1, Hp.
Qed.

Lemma pass_report_has_no_fail_witness :
  Forall (fun c => status c <> FAIL)
         (checks_performed (report_data (run nvidia_ok_host "T").2)).
Proof.
  apply (pass_report_has_no_fail nvidia_ok_host "T"
           (report_data (run nvidia_ok_host "T").2)).
  - right. reflexivity.
  - vm_compute. reflexivity.
Defined.

(** C1 as stated fails on the AMD server that lists two cards and one
    VBIOS line: the report is written with status FAIL although none of its
    three entries has status FAIL. *)
Lemma fail_status_without_fail_entry :
  exists r,
    report_file (run amd_two_models_one_vbios_host "T").2 = Some r
    /\ report_status r = FAIL
    /\ List.map status (checks_performed r) = [PASS; PASS; PASS]
    /\ ~ status_iff_no_fail r.
Proof.
  eexists. split; [vm_compute; reflexivity |].
  split; [reflexivity |]. split; [reflexivity |].
  intros [_ H]. discriminate H. by repeat constructor.
Qed.

(** * Further properties of the script *)

(** ** The item-list routine, continued *)

(** For any [items] the ledger grows by the entries of the lines, in
    order; for the empty list that is nothing. *)
Lemma validate_list_checks items cn ev re vb self w :
  checks (_validate_list_of_items items cn ev re vb self w).2
  = checks w ++ imap (item_check cn ev re vb) items.
Proof.
  unfold _validate_list_of_items. destruct items as [|l0 rest].
  - simpl. by rewrite app_nil_r.
  - rewrite validate_items_from_checks. f_equal.
Qed.

Lemma validate_item_failures cn ev re vb i line self w :
  failures (validate_item cn ev re vb i line self w).1
  = failures self + count_fail [item_check cn ev re vb i line].
Proof.
  unfold validate_item, item_check, count_fail.
  destruct (Re.search re line) as [g|]; [| done].
  cbv zeta. destruct (if vb then _ else _); simpl; lia.
Qed.

Lemma validate_items_from_failures cn ev re vb items :
  forall i self w,
    failures (validate_items_from cn ev re vb i items self w).1
    = failures self
      + count_fail (imap (fun j line => item_check cn ev re vb (i + j) line)
                         items).
Proof.
  induction items as [|line rest IH]; intros i self w; simpl.
  - unfold count_fail. simpl. lia.
  - unfold bind.
    pose proof (validate_item_failures cn ev re vb i line self w) as H1.
    destruct (validate_item cn ev re vb i line self w) as [self1 w1].
    simpl in H1. rewrite IH, H1, Nat.add_0_r.
    match goal with
    | |- _ = _ + count_fail (?c :: ?l) =>
        change (c :: l) with ([c] ++ l); rewrite (count_fail_app [c] l)
    end.
    rewrite <- Nat.add_assoc. do 3 f_equal.
    apply imap_ext. intros j x _. simpl. f_equal. lia.
Qed.

Lemma validate_list_failures items cn ev re vb self w :
  failures (_validate_list_of_items items cn ev re vb self w).1
  = failures self + count_fail (imap (item_check cn ev re vb) items)
    + match items with [] => 1 | _ :: _ => 0 end.
Proof.
  unfold _validate_list_of_items. destruct items as [|l0 rest].
  - simpl. unfold count_fail. simpl. lia.
  - rewrite validate_items_from_failures. rewrite Nat.add_0_r. done.
Qed.

(** X1. The item-list routine raises the failure counter by exactly the
    number of FAIL entries it appends, plus one when [items] is empty (the
    failure that has no entry). *)
Theorem item_list_counter_tally items cn ev re vb self w :
  let r := _validate_list_of_items items cn ev re vb self w in
  let new := imap (item_check cn ev re vb) items in
  checks r.2 = checks w ++ new
  /\ failures r.1
     = failures self + count_fail new
       + match items with [] => 1 | _ :: _ => 0 end.
Proof.
  split; [apply validate_list_checks | apply validate_list_failures].
Qed.

Lemma count_fail_status l1 :
  forall l2, List.map status l1 = List.map status l2 ->
             count_fail l1 = count_fail l2.
Proof.
  unfold count_fail.
  induction l1 as [|c1 l1 IH]; intros [|c2 l2] H; simpl in *; try done.
  injection H as Hs Hl. rewrite Hs.
  destruct (bool_decide (status c2 = FAIL)); simpl; auto.
Qed.

Lemma item_check_any_of_ext cn l1 l2 re i line :
  (forall x, x ∈ l1 <-> x ∈ l2) ->
  status (item_check cn (PList l1) re true i line)
  = status (item_check cn (PList l2) re true i line)
  /\ actual (item_check cn (PList l1) re true i line)
     = actual (item_check cn (PList l2) re true i line).
Proof.
  intros H. unfold item_check.
  destruct (Re.search re line) as [g|]; simpl; [| done].
  by rewrite (bool_decide_ext _ _ (H (PyStr.strip g))).
Qed.

(** X3. Any-of matching looks at membership only: two expected lists
    with the same members, in whatever order and multiplicity, give the
    same statuses and actual values entry by entry, and the same
    failure counter. *)
Theorem any_of_membership_only items cn l1 l2 re self w :
  (forall x, x ∈ l1 <-> x ∈ l2) ->
  let r1 := _validate_list_of_items items cn (PList l1) re true self w in
  let r2 := _validate_list_of_items items cn (PList l2) re true self w in
  failures r1.1 = failures r2.1
  /\ List.map status (checks r1.2) = List.map status (checks r2.2)
  /\ List.map actual (checks r1.2) = List.map actual (checks r2.2).
Proof.
  intros H r1 r2.
  pose proof (validate_list_checks items cn (PList l1) re true self w) as Hc1.
  pose proof (validate_list_failures items cn (PList l1) re true self w) as Hf1.
  pose proof (validate_list_checks items cn (PList l2) re true self w) as Hc2.
  pose proof (validate_list_failures items cn (PList l2) re true self w) as Hf2.
  fold r1 in Hc1, Hf1. fold r2 in Hc2, Hf2.
  assert (List.map status (imap (item_check cn (PList l1) re true) items)
          = List.map status (imap (item_check cn (PList l2) re true) items))
    as Hs.
  { change (@List.map CheckResult status_t) with (@fmap list _ CheckResult status_t).
    rewrite !fmap_imap. apply imap_ext. intros j x _. simpl.
    apply item_check_any_of_ext, H. }
  assert (List.map actual (imap (item_check cn (PList l1) re true) items)
          = List.map actual (imap (item_check cn (PList l2) re true) items))
    as Ha.
  { change (@List.map CheckResult string) with (@fmap list _ CheckResult string).
    rewrite !fmap_imap. apply imap_ext. intros j x _. simpl.
    apply item_check_any_of_ext, H. }
  rewrite Hf1, Hf2, Hc1, Hc2, !List.map_app, Hs, Ha.
  by rewrite (count_fail_status _ _ Hs).
Qed.

Lemma any_of_membership_only_witness :
  let items := ["    VBIOS Version : 96.00.41.00.01"; "    VBIOS Version : 1"] in
  let r1 := _validate_list_of_items items "VBIOS"
              (PList ["96.00.41.00.01"; "96.00.40.00.05"]) Re.nvidia_vbios
              true (new_validator Nvidia nvidia_spec) (initial_world "T") in
  let r2 := _validate_list_of_items items "VBIOS"
              (PList ["96.00.40.00.05"; "96.00.41.00.01"; "96.00.40.00.05"])
              Re.nvidia_vbios true (new_validator Nvidia nvidia_spec)
              (initial_world "T") in
  failures r1.1 = failures r2.1
  /\ List.map status (checks r1.2) = List.map status (checks r2.2)
  /\ List.map actual (checks r1.2) = List.map actual (checks r2.2).
Proof.
  apply (any_of_membership_only
           ["    VBIOS Version : 96.00.41.00.01"; "    VBIOS Version : 1"]
           "VBIOS" ["96.00.41.00.01"; "96.00.40.00.05"]
           ["96.00.40.00.05"; "96.00.41.00.01"; "96.00.40.00.05"]
           Re.nvidia_vbios (new_validator Nvidia nvidia_spec)
           (initial_world "T")).
  intros x. rewrite !elem_of_cons, !elem_of_nil. tauto.
Defined.

(** ** [validate], continued *)

(** X4. When a required key is missing from the vendor's spec section,
    [validate] answers [False] at once: it appends the single FAIL entry
    <VENDOR>_CONFIG whose notes quote the first missing key, raises the
    counter by 1 and prints two lines only (the start banner and the
    error), so neither check method runs. *)
Theorem validate_missing_key_aborts h self w key :
  (key = "expected_model" /\ spec self !! "expected_model" = None)
  \/ (key = "expected_vbios_list"
      /\ is_Some (spec self !! "expected_model")
      /\ spec self !! "expected_vbios_list" = None) ->
  let r := validate h self w in
  r.1.1 = false
  /\ failures r.1.2 = failures self + 1
  /\ checks r.2
     = checks w
       ++ [mkCheck (PyStr.upper (vendor_name self) +:+ "_CONFIG") FAIL
                   (PStr "Config to be present") "Missing keys"
                   ("'" +:+ key +:+ "'")]
  /\ length (stdout r.2) = length (stdout w) + 2.
Proof.
  intros [[-> Hm] | (-> & [em Hm] & Hv)]; unfold validate, bind; simpl;
    rewrite Hm; [| rewrite Hv]; simpl;
    rewrite !length_app; simpl; repeat split; lia.
Qed.

Lemma validate_missing_key_aborts_witness :
  let self := new_validator Amd {["expected_model" := PStr "AMD Instinct MI300X"]} in
  let r := validate amd_ok_host self (initial_world "T") in
  r.1.1 = false
  /\ failures r.1.2 = failures self + 1
  /\ checks r.2
     = checks (initial_world "T")
       ++ [mkCheck (PyStr.upper (vendor_name self) +:+ "_CONFIG") FAIL
                   (PStr "Config to be present") "Missing keys"
                   ("'" +:+ "expected_vbios_list" +:+ "'")]
  /\ length (stdout r.2) = length (stdout (initial_world "T")) + 2.
Proof.
  apply (validate_missing_key_aborts amd_ok_host
           (new_validator Amd {["expected_model" := PStr "AMD Instinct MI300X"]})
           (initial_world "T") "expected_vbios_list").
  right. split; [reflexivity |]. split; [| vm_compute; reflexivity].
  exists (PStr "AMD Instinct MI300X"). vm_compute. reflexivity.
Defined.

(** X5. The answer of [validate] is [True] exactly when the counter
    stands at zero afterwards, and every FAIL entry it appended was
    counted: with the answer [True] it appended no FAIL entry. *)
Theorem validate_answer_is_zero_counter h self w :
  let r := validate h self w in
  r.1.1 = Nat.eqb (failures r.1.2) 0
  /\ count_fail (checks r.2) + failures self
     <= count_fail (checks w) + failures r.1.2.
Proof.
  intros r. split.
  - subst r. unfold validate, validate_missing_key, bind. simpl.
    destruct (spec self !! "expected_model") as [em|]; simpl;
      [| by destruct (Nat.eqb_spec (failures self + 1) 0); [lia |]].
    destruct (spec self !! "expected_vbios_list") as [ev|]; simpl;
      [| by destruct (Nat.eqb_spec (failures self + 1) 0); [lia |]].
    match goal with
    | |- context [_check_models h em self ?w0] =>
        destruct (_check_models h em self w0) as [s1 w1]
    end.
    destruct (_check_vbios h ev s1 w1) as [s2 w2]. done.
  - destruct (counted_validate h self w) as [H1 H2]. fold r in H1, H2.
    unfold contribution in *.
    destruct (append_only_validate h self w) as [k Hk]. fold r in Hk.
    destruct r.1.1; [| lia].
    assert (failures self = 0) by lia.
    rewrite Hk, count_fail_app in *. lia.
Qed.

(** X6. The Intel placeholder: with both keys present the Intel
    validator consults no command; [validate] appends the single SKIP
    entry Intel_Check, leaves the counter alone and answers whether the
    counter was zero. *)
Theorem intel_validate_skips h self w em ev :
  kind self = Intel ->
  spec self !! "expected_model" = Some em ->
  spec self !! "expected_vbios_list" = Some ev ->
  let r := validate h self w in
  r.1.1 = Nat.eqb (failures self) 0
  /\ failures r.1.2 = failures self
  /\ checks r.2
     = checks w
       ++ [mkCheck "Intel_Check" SKIP (PStr "N/A") "N/A" "Not Implemented"].
Proof.
  intros Hk Hm Hv. unfold validate, bind, _check_models, _check_vbios.
  rewrite Hm, Hv, Hk. unfold intel_check_models, intel_check_vbios, bind.
  simpl. rewrite Hk. done.
Qed.

Lemma intel_validate_skips_witness :
  let r := validate no_config_host (new_validator Intel nvidia_spec)
                    (initial_world "T") in
  r.1.1 = Nat.eqb (failures (new_validator Intel nvidia_spec)) 0
  /\ failures r.1.2 = failures (new_validator Intel nvidia_spec)
  /\ checks r.2
     = checks (initial_world "T")
       ++ [mkCheck "Intel_Check" SKIP (PStr "N/A") "N/A" "Not Implemented"].
Proof.
  apply (intel_validate_skips no_config_host (new_validator Intel nvidia_spec)
           (initial_world "T") (PStr "NVIDIA H100 80GB PCIe")
           (PList ["96.00.41.00.01"; "96.00.40.00.05"])).
  - reflexivity.
  - vm_compute. reflexivity.
  - vm_compute. reflexivity.
Defined.

Lemma validate_list_leaves_trace items cn ev re vb self w :
  let r := _validate_list_of_items items cn ev re vb self w in
  length (checks w) + failures self < length (checks r.2) + failures r.1.
Proof.
  pose proof (validate_list_checks items cn ev re vb self w) as Hc.
  pose proof (validate_list_failures items cn ev re vb self w) as Hf.
  cbv zeta. rewrite Hc, Hf, length_app, length_imap.
  destruct items; simpl; lia.
Qed.

Lemma check_models_leaves_trace h e self w :
  let r := _check_models h e self w in
  length (checks w) + failures self < length (checks r.2) + failures r.1.
Proof.
  unfold _check_models, nvidia_check_models, amd_check_models,
    intel_check_models, bind, run_command.
  destruct (kind self); simpl.
  - destruct (subprocess_run h "nvidia-smi -L"); simpl;
      [| unfold checks; simpl; lia ..].
    match goal with
    | |- context [_validate_list_of_items ?it ?cn ?ev ?re ?vb ?s ?w0] =>
        exact (validate_list_leaves_trace it cn ev re vb s w0)
    end.
  - destruct (subprocess_run h "rocm-smi --showproductname"); simpl;
      [| unfold checks; simpl; rewrite length_app; simpl; lia ..].
    match goal with
    | |- context [_validate_list_of_items ?it ?cn ?ev ?re ?vb ?s ?w0] =>
        exact (validate_list_leaves_trace it cn ev re vb s w0)
    end.
  - unfold checks. simpl. rewrite length_app. simpl. lia.
Qed.

(** X7. [validate] never passes silently: whatever the host answers, it
    appends at least one entry or raises the counter (the number of
    entries plus the counter strictly grows). *)
Theorem validate_leaves_trace h self w :
  let r := validate h self w in
  length (checks w) + failures self < length (checks r.2) + failures r.1.2.
Proof.
  unfold validate, validate_missing_key, bind. simpl.
  destruct (spec self !! "expected_model") as [em|]; simpl;
    [| unfold checks; simpl; rewrite length_app; simpl; lia].
  destruct (spec self !! "expected_vbios_list") as [ev|]; simpl;
    [| unfold checks; simpl; rewrite length_app; simpl; lia].
  match goal with
  | |- context [_check_models h em self ?w0] =>
      pose proof (check_models_leaves_trace h em self w0) as H1;
      destruct (_check_models h em self w0) as [s1 w1]
  end.
  pose proof (append_only_check_vbios h ev s1 w1) as [k Hk].
  pose proof (counted_check_vbios h ev s1 w1) as [H2 _].
  destruct (_check_vbios h ev s1 w1) as [s2 w2].
  simpl in *. unfold checks in *. simpl in *.
  rewrite Hk, length_app. lia.
Qed.

(** ** Vendor validators, continued *)

Lemma component_item_check cn ev re vb i line :
  component (item_check cn ev re vb i line) = gpu_component i cn.
Proof. unfold item_check. by destruct (Re.search re line). Qed.

(** X8. AMD validator, the join between the two listings: when both
    commands succeed and print the same number of non-blank lines, the
    model check followed by the VBIOS check appends one Model entry per
    model line and then one VBIOS entry per VBIOS line, so that the unit at
    index [i] is reported as GPU_<i>_Model and GPU_<i>_VBIOS. *)
Theorem amd_checks_pair_up h em ev self w mout vout :
  kind self = Amd ->
  subprocess_run h "rocm-smi --showproductname" = Completed mout ->
  subprocess_run h "rocm-smi --showvbios" = Completed vout ->
  length (nonblank_lines (PyStr.strip vout))
  = length (nonblank_lines (PyStr.strip mout)) ->
  let r1 := _check_models h em self w in
  let r2 := _check_vbios h ev r1.1 r1.2 in
  let models := nonblank_lines (PyStr.strip mout) in
  let vbios := nonblank_lines (PyStr.strip vout) in
  let new := imap (item_check "Model" em Re.amd_model false) models
             ++ imap (item_check "VBIOS" ev Re.amd_vbios true) vbios in
  checks r2.2 = checks w ++ new
  /\ List.map component new
     = imap (fun i _ => "GPU_" +:+ PyStr.of_nat i +:+ "_Model") models
       ++ imap (fun i _ => "GPU_" +:+ PyStr.of_nat i +:+ "_VBIOS") vbios.
Proof.
  intros Hk Hm Hv Hlen r1 r2 models vbios new. split.
  - destruct (amd_check_models_gpu_count h em self w mout Hk Hm) as [Hk1 Hg1].
    fold r1 in Hk1, Hg1.
    assert (checks r1.2
            = checks w ++ imap (item_check "Model" em Re.amd_model false) models)
      as Hc1.
    { subst r1. unfold _check_models. rewrite Hk.
      unfold amd_check_models, bind, run_command. rewrite Hm. simpl.
      by rewrite validate_list_checks. }
    subst r2. unfold _check_vbios. rewrite Hk1.
    unfold amd_check_vbios, bind, run_command. rewrite Hv. simpl.
    rewrite Hg1, Hlen, Nat.eqb_refl. simpl.
    rewrite validate_list_checks. unfold checks in *. simpl.
    rewrite Hc1. subst new. by rewrite app_assoc.
  - subst new. rewrite List.map_app.
    change (@List.map CheckResult string) with (@fmap list _ CheckResult string).
    rewrite !fmap_imap. f_equal; apply imap_ext; intros i x _; simpl;
      by rewrite component_item_check.
Qed.

Lemma amd_checks_pair_up_witness :
  let r1 := _check_models amd_ok_host (PStr "AMD Instinct MI300X")
                          (new_validator Amd amd_spec) (initial_world "T") in
  let r2 := _check_vbios amd_ok_host
                         (PList ["123.456.789.001"; "123.456.789.000"])
                         r1.1 r1.2 in
  let models := nonblank_lines (PyStr.strip "Card #0: AMD Instinct MI300X") in
  let vbios :=
    nonblank_lines (PyStr.strip "Card #0: VBIOS version: 123.456.789.001") in
  let new := imap (item_check "Model" (PStr "AMD Instinct MI300X")
                              Re.amd_model false) models
             ++ imap (item_check "VBIOS"
                                 (PList ["123.456.789.001"; "123.456.789.000"])
                                 Re.amd_vbios true) vbios in
  checks r2.2 = checks (initial_world "T") ++ new
  /\ List.map component new
     = imap (fun i _ => "GPU_" +:+ PyStr.of_nat i +:+ "_Model") models
       ++ imap (fun i _ => "GPU_" +:+ PyStr.of_nat i +:+ "_VBIOS") vbios.
Proof.
  exact (amd_checks_pair_up amd_ok_host (PStr "AMD Instinct MI300X")
           (PList ["123.456.789.001"; "123.456.789.000"])
           (new_validator Amd amd_spec) (initial_world "T")
           "Card #0: AMD Instinct MI300X"
           "Card #0: VBIOS version: 123.456.789.001"
           eq_refl eq_refl eq_refl eq_refl).
Defined.

(** A pattern that starts with a literal character finds nothing in a
    line without that character. *)
Lemma search_first_char c p s :
  Forall (fun a => a <> c) (list_ascii_of_string s) ->
  Re.search (Re.One (Re.CChar c) :: p) s = None.
Proof.
  induction s as [|a s IH]; intros H; simpl in *; [done |].
  inversion H as [|? ? Ha Hs]; subst.
  destruct (Ascii.eqb_spec a c) as [|_]; [done |]. by apply IH.
Qed.

(** X9. NVIDIA validator: the inventory output is split on newlines as
    it is, so there is one Model entry per raw line and never the
    empty-items failure; a line without the letter G, such as a blank line
    inside the output, is reported at its index as a FAIL entry with
    actual "Parse Error" and the line in the notes. *)
Theorem nvidia_one_entry_per_raw_line h e self w out :
  kind self = Nvidia ->
  subprocess_run h "nvidia-smi -L" = Completed out ->
  let r := _check_models h e self w in
  let lines := PyStr.split PyStr.newline (PyStr.strip out) in
  checks r.2 = checks w ++ imap (item_check "Model" e Re.nvidia_model false) lines
  /\ 1 <= length lines
  /\ forall i line,
       lines !! i = Some line ->
       Forall (fun a => a <> "G"%char) (list_ascii_of_string line) ->
       checks r.2 !! (length (checks w) + i)
       = Some (mkCheck ("GPU_" +:+ PyStr.of_nat i +:+ "_Model") FAIL e
                       "Parse Error" line).
Proof.
  intros Hk Hc r lines.
  assert (checks r.2
          = checks w ++ imap (item_check "Model" e Re.nvidia_model false) lines)
    as Hr.
  { subst r. unfold _check_models. rewrite Hk.
    unfold nvidia_check_models, bind, run_command. rewrite Hc. simpl.
    by rewrite validate_list_checks. }
  split; [done |]. split.
  - subst lines. destruct (PyStr.strip out) as [|a s]; simpl; [lia |].
    destruct (Ascii.eqb a PyStr.newline); simpl; [lia |].
    destruct (PyStr.split PyStr.newline s); simpl; lia.
  - intros i line Hi HG. rewrite Hr, lookup_app_r by lia.
    replace (length (checks w) + i - length (checks w)) with i by lia.
    rewrite list_lookup_imap, Hi. simpl. f_equal.
    unfold item_check.
    by rewrite (search_first_char "G"%char _ line HG : Re.search Re.nvidia_model line = None).
Qed.

Lemma nvidia_one_entry_per_raw_line_witness :
  let out := lines2 "GPU 0: NVIDIA H100 80GB PCIe (UUID: a)"
                    (lines2 "" "GPU 1: NVIDIA H100 80GB PCIe (UUID: b)") in
  let h := table_host [("nvidia-smi -L", Completed out)] "nvidia-smi" in
  let e := PStr "NVIDIA H100 80GB PCIe" in
  let w := initial_world "T" in
  let r := _check_models h e (new_validator Nvidia nvidia_spec) w in
  let lines := PyStr.split PyStr.newline (PyStr.strip out) in
  checks r.2 = checks w ++ imap (item_check "Model" e Re.nvidia_model false) lines
  /\ 1 <= length lines
  /\ forall i line,
       lines !! i = Some line ->
       Forall (fun a => a <> "G"%char) (list_ascii_of_string line) ->
       checks r.2 !! (length (checks w) + i)
       = Some (mkCheck ("GPU_" +:+ PyStr.of_nat i +:+ "_Model") FAIL e
                       "Parse Error" line).
Proof.
  exact (nvidia_one_entry_per_raw_line
           (table_host
              [("nvidia-smi -L",
                Completed
                  (lines2 "GPU 0: NVIDIA H100 80GB PCIe (UUID: a)"
                          (lines2 "" "GPU 1: NVIDIA H100 80GB PCIe (UUID: b)")))]
              "nvidia-smi")
           (PStr "NVIDIA H100 80GB PCIe") (new_validator Nvidia nvidia_spec)
           (initial_world "T") _ eq_refl eq_refl).
Defined.

Example nvidia_blank_line_inside :
  let out := lines2 "GPU 0: NVIDIA H100 80GB PCIe (UUID: a)"
                    (lines2 "" "GPU 1: NVIDIA H100 80GB PCIe (UUID: b)") in
  let h := table_host [("nvidia-smi -L", Completed out)] "nvidia-smi" in
  List.map (fun c => (component c, status c, actual c))
           (checks (_check_models h (PStr "NVIDIA H100 80GB PCIe")
                                  (new_validator Nvidia nvidia_spec)
                                  (initial_world "T")).2)
  = [("GPU_0_Model", PASS, "NVIDIA H100 80GB PCIe");
     ("GPU_1_Model", FAIL, "Parse Error");
     ("GPU_2_Model", PASS, "NVIDIA H100 80GB PCIe")].
Proof. vm_compute. done. Qed.

(** X10. AMD validator: when the product listing succeeds with an output
    that is empty once trimmed, no model line is found: the stored GPU
    count is 0, the model check ends in the no-items failure (counter up
    by 1) and the ledger is left unchanged. *)
Theorem amd_empty_listing_no_items h e self w out :
  kind self = Amd ->
  subprocess_run h "rocm-smi --showproductname" = Completed out ->
  PyStr.strip out = "" ->
  let r := _check_models h e self w in
  gpu_count r.1 = 0
  /\ failures r.1 = failures self + 1
  /\ checks r.2 = checks w
  /\ stdout r.2
     = stdout w
       ++ [[Txt "[INFO]"; Txt " "; Txt "Checking GPU Models..."];
           [Txt "[INFO]"; Txt " "; Txt "Found "; Txt "0"; Txt " AMD GPU(s)."];
           [Txt "[FAIL]"; Txt " ";
            Txt "  [FAIL] Command returned no items for "; Txt "Model";
            Txt "."]].
Proof.
  intros Hk Hc Hs. unfold _check_models. rewrite Hk.
  unfold amd_check_models, bind, run_command. rewrite Hc. simpl.
  rewrite Hs. simpl. by rewrite <- !app_assoc.
Qed.

Lemma amd_empty_listing_no_items_witness :
  let h := table_host [("rocm-smi --showproductname", Completed "  ")]
                      "rocm-smi" in
  let r := _check_models h (PStr "AMD Instinct MI300X")
                         (new_validator Amd amd_spec) (initial_world "T") in
  gpu_count r.1 = 0
  /\ failures r.1 = failures (new_validator Amd amd_spec) + 1
  /\ checks r.2 = checks (initial_world "T")
  /\ stdout r.2
     = stdout (initial_world "T")
       ++ [[Txt "[INFO]"; Txt " "; Txt "Checking GPU Models..."];
           [Txt "[INFO]"; Txt " "; Txt "Found "; Txt "0"; Txt " AMD GPU(s)."];
           [Txt "[FAIL]"; Txt " ";
            Txt "  [FAIL] Command returned no items for "; Txt "Model";
            Txt "."]].
Proof.
  exact (amd_empty_listing_no_items
           (table_host [("rocm-smi --showproductname", Completed "  ")]
                       "rocm-smi")
           (PStr "AMD Instinct MI300X") (new_validator Amd amd_spec)
           (initial_world "T") "  " eq_refl eq_refl eq_refl).
Defined.

(** ** The NVIDIA VBIOS pattern *)

Section VbiosPattern.

Import Re.

Lemma match_star_cons k p a s grp acc :
  match_here (Star k :: p) (String a s) grp acc
  = if cls_match k a then
      match match_here (Star k :: p) s grp (push grp a acc) with
      | Some r => Some r
      | None => match_here p (String a s) grp acc
      end
    else match_here p (String a s) grp acc.
Proof. reflexivity. Qed.

Lemma match_plus_cons k p a s grp acc :
  match_here (Plus k :: p) (String a s) grp acc
  = if cls_match k a then match_here (Star k :: p) s grp (push grp a acc)
    else None.
Proof. reflexivity. Qed.

(** A greedy [.*] that closes the group takes the whole of a line. *)
Lemma match_dot_star_all s :
  Forall (fun a => a <> PyStr.newline) (list_ascii_of_string s) ->
  forall acc,
    match_here [Star CDot; GroupClose] s true acc
    = Some (List.rev (list_ascii_of_string s) ++ acc).
Proof.
  induction s as [|a s IH]; intros H acc; [done |].
  simpl in H. inversion H as [|? ? Ha Hs]; subst.
  rewrite match_star_cons. simpl cls_match.
  destruct (Ascii.eqb_spec a PyStr.newline) as [|_]; [done |]. simpl negb.
  cbv iota. rewrite (IH Hs). simpl. by rewrite <- app_assoc.
Qed.

(** Greedy whitespace in front of the group leaves the group the line
    without its leading whitespace. *)
Lemma match_space_star_group s :
  Forall (fun a => a <> PyStr.newline) (list_ascii_of_string s) ->
  forall acc,
    match_here [Star CSpace; GroupOpen; Star CDot; GroupClose] s false acc
    = Some (List.rev (list_ascii_of_string (PyStr.lstrip s))).
Proof.
  induction s as [|a s IH]; intros H acc; [done |].
  pose proof H as H'. simpl in H. inversion H as [|? ? Ha Hs]; subst.
  rewrite match_star_cons. simpl cls_match. simpl PyStr.lstrip.
  destruct (PyStr.isspace a).
  - by rewrite (IH Hs).
  - change (match_here [GroupOpen; Star CDot; GroupClose] (String a s) false acc)
      with (match_here [Star CDot; GroupClose] (String a s) true []).
    rewrite (match_dot_star_all _ H'). by rewrite app_nil_r.
Qed.

Lemma match_one_cons k p a s grp acc :
  match_here (One k :: p) (String a s) grp acc
  = if cls_match k a then match_here p s grp (push grp a acc) else None.
Proof. reflexivity. Qed.

Lemma search_cons p a s :
  search p (String a s)
  = match match_here p (String a s) false [] with
    | Some acc => Some (string_of_list_ascii (List.rev acc))
    | None => search p s
    end.
Proof. reflexivity. Qed.

Lemma nvidia_vbios_items :
  nvidia_vbios
  = One (CChar ":") :: Plus CSpace :: [GroupOpen; Star CDot; GroupClose].
Proof. reflexivity. Qed.

Lemma search_vbios_after_colon pre a rest :
  Forall (fun c => c <> ":"%char) (list_ascii_of_string pre) ->
  PyStr.isspace a = true ->
  Forall (fun c => c <> PyStr.newline) (list_ascii_of_string rest) ->
  search nvidia_vbios (pre +:+ String ":" (String a rest))
  = Some (PyStr.lstrip rest).
Proof.
  intros Hpre Ha Hrest. rewrite nvidia_vbios_items.
  induction pre as [|c pre IH].
  - change ("" +:+ String ":" (String a rest))
      with (String ":" (String a rest)).
    rewrite search_cons, match_one_cons.
    change (cls_match (CChar ":") ":") with (Ascii.eqb ":" ":").
    rewrite Ascii.eqb_refl, match_plus_cons.
    change (cls_match CSpace a) with (PyStr.isspace a).
    rewrite Ha, (match_space_star_group _ Hrest).
    by rewrite List.rev_involutive, string_of_list_ascii_of_string.
  - simpl in Hpre. inversion Hpre as [|? ? Hc Hp]; subst.
    change (String c pre +:+ String ":" (String a rest))
      with (String c (pre +:+ String ":" (String a rest))).
    rewrite search_cons, match_one_cons.
    change (cls_match (CChar ":") c) with (Ascii.eqb c ":").
    destruct (Ascii.eqb_spec c ":") as [|_]; [done |]. by apply IH.
Qed.

End VbiosPattern.

Lemma lstrip_idemp s : PyStr.lstrip (PyStr.lstrip s) = PyStr.lstrip s.
Proof.
  induction s as [|a s IH]; simpl; [done |].
  destruct (PyStr.isspace a) eqn:Ha; [done |]. simpl. by rewrite Ha.
Qed.

(** X11. NVIDIA VBIOS lines: on a line whose first colon is followed by
    whitespace, the value that is checked is everything after that first
    colon, trimmed (later colons belong to the value), and the entry is
    PASS exactly when this value is one of the expected list. *)
Theorem nvidia_vbios_value_after_first_colon pre a rest l i :
  Forall (fun c => c <> ":"%char) (list_ascii_of_string pre) ->
  PyStr.isspace a = true ->
  Forall (fun c => c <> PyStr.newline) (list_ascii_of_string rest) ->
  item_check "VBIOS" (PList l) Re.nvidia_vbios true i
             (pre +:+ String ":" (String a rest))
  = mkCheck ("GPU_" +:+ PyStr.of_nat i +:+ "_VBIOS")
            (if bool_decide (PyStr.strip rest ∈ l) then PASS else FAIL)
            (PList l) (PyStr.strip rest) "".
Proof.
  intros Hpre Ha Hrest. unfold item_check.
  rewrite (search_vbios_after_colon pre a rest Hpre Ha Hrest).
  cbv zeta. unfold PyStr.strip at 1 2 3. rewrite !lstrip_idemp.
  fold (PyStr.strip rest). simpl py_in. done.
Qed.

Lemma nvidia_vbios_value_after_first_colon_witness :
  item_check "VBIOS" (PList ["96.00.41.00.01"; "x: y"]) Re.nvidia_vbios true 3
             ("    VBIOS Version     " +:+ String ":" (String " " " x: y "))
  = mkCheck ("GPU_" +:+ PyStr.of_nat 3 +:+ "_VBIOS")
            (if bool_decide (PyStr.strip " x: y " ∈ ["96.00.41.00.01"; "x: y"])
             then PASS else FAIL)
            (PList ["96.00.41.00.01"; "x: y"]) (PyStr.strip " x: y ") "".
Proof.
  apply (nvidia_vbios_value_after_first_colon
           "    VBIOS Version     " " " " x: y "
           ["96.00.41.00.01"; "x: y"] 3).
  - repeat constructor; discriminate.
  - reflexivity.
  - repeat constructor; discriminate.
Defined.

(** ** The orchestrator, continued *)

Section FirstEntry.

(** The shape proved of [run_validation] below, as a predicate for the
    walk over its branches. *)
Let first_entry_ok (m : M nat) : Prop :=
  forall w, exists k rest,
    checks (m w).2 = checks w ++ k :: rest
    /\ (component k = "YAML_Spec" \/ component k = "GPU_Vendor")
    /\ (status k = FAIL /\ rest = [] /\ (m w).1 = 1 \/ status k = PASS).

Local Lemma first_entry_quiet_bind {A} (m : M A) (k : A -> M nat) :
  quiet m -> (forall a, first_entry_ok (k a)) -> first_entry_ok (bind m k).
Proof.
  intros Hm Hk w. unfold bind. specialize (Hm w).
  destruct (m w) as [a w1]. simpl in Hm. rewrite <- Hm. apply Hk.
Qed.

Local Lemma first_entry_fail c e a n :
  c = "YAML_Spec" \/ c = "GPU_Vendor" ->
  first_entry_ok (bind (add_check_to_report c FAIL e a n) (fun _ => ret 1)).
Proof. intros Hc w. eexists _, []. simpl. eauto 10. Qed.

Local Lemma first_entry_pass e a n (k : M nat) :
  append_only k ->
  first_entry_ok (bind (add_check_to_report "GPU_Vendor" PASS e a n)
                       (fun _ => k)).
Proof.
  intros Hk w. unfold bind. simpl.
  match goal with |- context [k ?w0] => destruct (Hk w0) as [rest Hr] end.
  eexists _, rest. unfold checks in *. simpl in *. rewrite Hr.
  rewrite <- app_assoc. split; [reflexivity |]. simpl. eauto.
Qed.

(** X12. [run_validation] never returns without an entry: the first
    entry it appends is YAML_Spec (model absent from the baseline) or
    GPU_Vendor (every other path); when that entry is FAIL it is the only
    one and the result is exactly 1. *)
Theorem run_validation_first_entry h m c w :
  let r := run_validation h m c w in
  exists k rest,
    checks r.2 = checks w ++ k :: rest
    /\ (component k = "YAML_Spec" \/ component k = "GPU_Vendor")
    /\ (status k = FAIL /\ rest = [] /\ r.1 = 1 \/ status k = PASS).
Proof.
  revert w. change (first_entry_ok (run_validation h m c)).
  unfold run_validation, vendor_not_defined, gpu_spec_not_defined.
  walk ltac:(first
    [ apply first_entry_quiet_bind; [solve [auto with quiet] |]
    | apply first_entry_fail; solve [auto]
    | apply first_entry_pass;
      walk ltac:(first [ apply append_only_run_validator
                       | apply append_only_quiet; solve [auto with quiet]
                       | apply append_only_add_check
                       | apply append_only_ret
                       | apply append_only_bind ]) ]).
Qed.

End FirstEntry.

(** Past the gate [run_validation] is the validator step, entered with
    the entry GPU_Vendor PASS just appended. *)
Lemma run_validation_past_gate h m c w ms v gs :
  c !! m = Some ms ->
  expected_gpu_vendor ms = Some v ->
  v <> "" ->
  detect_tool h = Some v ->
  gpu_spec ms = Some gs ->
  gs <> ∅ ->
  exists w',
    checks w' = checks w ++ [mkCheck "GPU_Vendor" PASS (PStr v) v ""]
    /\ run_validation h m c w = run_validator h v gs 0 w'.
Proof.
  intros Hm He Hv Ht Hg Hgs.
  unfold run_validation. rewrite Hm, He, Ht, Hg. cbv zeta.
  destruct (String.eqb_spec v "") as [|_]; [done |].
  rewrite bool_decide_eq_true_2 by done.
  rewrite bool_decide_eq_false_2 by done.
  unfold bind. simpl. eexists. split; [| reflexivity]. done.
Qed.

Lemma run_validation_zero_gate h m c w :
  (run_validation h m c w).1 = 0 ->
  exists ms v gs,
    c !! m = Some ms /\ expected_gpu_vendor ms = Some v /\ v <> ""
    /\ detect_tool h = Some v /\ gpu_spec ms = Some gs /\ gs <> ∅.
Proof.
  unfold run_validation, vendor_not_defined, gpu_spec_not_defined.
  cbv zeta.
  destruct (c !! m) as [ms|] eqn:Hm; [| done].
  destruct (expected_gpu_vendor ms) as [v|] eqn:He; [| done].
  destruct (String.eqb_spec v "") as [|Hv]; [done |].
  case_bool_decide as Ht; simpl negb; cbv iota; [| done].
  destruct (gpu_spec ms) as [gs|] eqn:Hg; [| done].
  case_bool_decide as Hgs; [done |].
  intros _. by exists ms, v, gs.
Qed.

(** X13. A result of 0 from [run_validation] certifies the whole chain: the
    model is in the baseline, its declared vendor is the detected tool, it
    has a non-empty [gpu_spec], the first appended entry is GPU_Vendor with
    status PASS, and no entry after it is FAIL. *)
Theorem run_validation_zero h m c w :
  (run_validation h m c w).1 = 0 ->
  exists ms v gs rest,
    c !! m = Some ms
    /\ expected_gpu_vendor ms = Some v
    /\ detect_tool h = Some v
    /\ gpu_spec ms = Some gs /\ gs <> ∅
    /\ checks (run_validation h m c w).2
       = checks w ++ mkCheck "GPU_Vendor" PASS (PStr v) v "" :: rest
    /\ Forall (fun k => status k <> FAIL) rest.
Proof.
  intros H0.
  destruct (run_validation_zero_gate h m c w H0)
    as (ms & v & gs & Hm & He & Hv & Ht & Hg & Hgs).
  destruct (run_validation_past_gate h m c w ms v gs Hm He Hv Ht Hg Hgs)
    as (w' & Hw' & Heq).
  rewrite Heq in *.
  destruct (append_only_run_validator h v gs 0 w') as [rest Hr].
  destruct (counted_run_validator h v gs 0 w') as [_ Hn].
  exists ms, v, gs, rest. repeat (split; [done |]). split.
  - by rewrite Hr, Hw', <- app_assoc.
  - apply count_fail_zero. rewrite Hr, count_fail_app, H0 in Hn. lia.
Qed.

Lemma run_validation_zero_witness :
  exists ms v gs rest,
    golden !! "SYS-421GU-TNXR" = Some ms
    /\ expected_gpu_vendor ms = Some v
    /\ detect_tool nvidia_ok_host = Some v
    /\ gpu_spec ms = Some gs /\ gs <> ∅
    /\ checks (run_validation nvidia_ok_host "SYS-421GU-TNXR" golden
                              (initial_world "T")).2
       = checks (initial_world "T")
         ++ mkCheck "GPU_Vendor" PASS (PStr v) v "" :: rest
    /\ Forall (fun k => status k <> FAIL) rest.
Proof.
  apply (run_validation_zero nvidia_ok_host "SYS-421GU-TNXR" golden
           (initial_world "T")).
  vm_compute. reflexivity.
Defined.

(** X14. Every FAIL entry is counted: neither a check method of a
    validator nor [run_validation] appends more FAIL entries than it adds
    to the failure count, and the count never goes down. *)
Theorem fail_entries_are_counted h :
  (forall e self w,
     let r := _check_models h e self w in
     failures self <= failures r.1
     /\ count_fail (checks r.2) - count_fail (checks w)
        <= failures r.1 - failures self)
  /\ (forall e self w,
        let r := _check_vbios h e self w in
        failures self <= failures r.1
        /\ count_fail (checks r.2) - count_fail (checks w)
           <= failures r.1 - failures self)
  /\ (forall m c w,
        let r := run_validation h m c w in
        count_fail (checks r.2) - count_fail (checks w) <= r.1).
Proof.
  repeat apply conj; intros.
  - destruct (counted_check_models h e self w). subst r. lia.
  - destruct (counted_check_vbios h e self w). subst r. lia.
  - destruct (counted_run_validation h m c w). subst r. lia.
Qed.

(** ** Whole runs, continued *)

Lemma main_unfold h w :
  main h w
  = let (om, w1) := get_system_model h w in
    match om with
    | None => (1, w1)
    | Some m =>
        if String.eqb m "" then (1, w1)
        else
          let (oc, w2) := load_config h CONFIG_FILE_PATH w1 in
          match oc with
          | None => (1, w2)
          | Some c =>
              if bool_decide (c = ∅) then (1, w2)
              else
                let (n, w3) := run_validation h m c w2 in
                let (_, w4) := write_report h n w3 in
                print_final_result n m w4
          end
    end.
Proof.
  unfold main, bind. destruct (get_system_model h w) as [[m|] w1]; [| done].
  simpl. destruct (String.eqb m ""); simpl; [done |].
  destruct (load_config h CONFIG_FILE_PATH w1) as [[c|] w2]; [| done].
  destruct (bool_decide (c = ∅)); done.
Qed.

Lemma get_system_model_spec h w :
  get_system_model h w
  = match reads_model h with
    | Some m =>
        (Some m, (bind (log_msg [Txt "--- [Phase 1: BOM Validation] ---"] false)
                       (fun _ => bind (log_msg [Txt "Detected system model: "; Txt m] false)
                                      (fun _ => set_system_model m)) w).2)
    | None =>
        (None, (bind (log_msg [Txt "--- [Phase 1: BOM Validation] ---"] false)
                     (fun _ => bind (run_command h dmidecode)
                                    (fun _ => system_model_unreadable)) w).2)
    end.
Proof.
  unfold get_system_model, reads_model, run_command, bind, dmidecode.
  simpl. destruct (subprocess_run h _); simpl; try done.
  destruct (String.eqb (PyStr.strip out) ""); done.
Qed.

Lemma load_config_spec h w :
  (load_config h CONFIG_FILE_PATH w).1
  = match safe_load h CONFIG_FILE_PATH with
    | YamlMapping c => Some c
    | _ => None
    end.
Proof. unfold load_config. by destruct (safe_load h CONFIG_FILE_PATH). Qed.

Lemma print_final_result_code n m w :
  (print_final_result n m w).1 = if Nat.eqb n 0 then 0 else 1.
Proof. unfold print_final_result, bind. simpl. by destruct (Nat.eqb n 0). Qed.

(** X15. The exit code agrees with the report: a run exits with 0 exactly
    when the report it ends with has status PASS, and with 1 otherwise. *)
Theorem exit_code_is_status h now :
  ((run h now).1 = 0 <-> report_status (report_data (run h now).2) = PASS)
  /\ ((run h now).1 = 0 \/ (run h now).1 = 1).
Proof.
  unfold run. rewrite main_unfold.
  pose proof (keeps_verdict_get_system_model h (initial_world now)) as [_ Hs1].
  destruct (get_system_model h (initial_world now)) as [[m|] w1];
    simpl in Hs1; cbv iota beta;
    [| simpl; rewrite Hs1; split; [split; done | by right]].
  destruct (String.eqb m "");
    [simpl; rewrite Hs1; split; [split; done | by right] |].
  pose proof (keeps_verdict_load_config h CONFIG_FILE_PATH w1) as [_ Hs2].
  destruct (load_config h CONFIG_FILE_PATH w1) as [[c|] w2];
    simpl in Hs2; cbv iota beta;
    [| simpl; rewrite Hs2, Hs1; split; [split; done | by right]].
  case_bool_decide;
    [simpl; rewrite Hs2, Hs1; split; [split; done | by right] |].
  destruct (run_validation h m c w2) as [n w3].
  pose proof (write_report_spec h n w3) as (_ & Hs4 & _).
  destruct (write_report h n w3) as [[] w4]. simpl in Hs4.
  rewrite print_final_result_code.
  destruct (print_final_result_world n m w4) as [-> _]. rewrite Hs4.
  destruct (Nat.eqb n 0); split; auto; split; done.
Qed.

Lemma get_system_model_reads h w :
  (get_system_model h w).1 = reads_model h
  /\ report_id (report_data (get_system_model h w).2) = report_id (report_data w)
  /\ system_model (report_data (get_system_model h w).2)
     = default (system_model (report_data w)) (reads_model h)
  /\ checks (get_system_model h w).2
     = checks w
       ++ match reads_model h with
          | Some _ => []
          | None => [mkCheck "System_Model" FAIL (PStr "Any Model")
                             "Read Error" ""]
          end.
Proof.
  unfold get_system_model, reads_model, system_model_unreadable, run_command,
    bind, dmidecode, checks.
  simpl. destruct (subprocess_run h _); simpl; try done.
  destruct (String.eqb (PyStr.strip out) ""); simpl; try done.
  by rewrite app_nil_r.
Qed.

Lemma load_config_loads h w :
  loads_config h
  = match (load_config h CONFIG_FILE_PATH w).1 with
    | Some c => if bool_decide (c = ∅) then None else Some c
    | None => None
    end
  /\ report_data (load_config h CONFIG_FILE_PATH w).2
     = match safe_load h CONFIG_FILE_PATH with
       | YamlMapping _ => report_data w
       | YamlNone =>
           append_check (mkCheck "YAML_Parse" FAIL (PStr "Valid YAML data")
                                 "File is empty or invalid" "")
                        (report_data w)
       | YamlException e =>
           append_check (mkCheck "YAML_Load" FAIL (PStr CONFIG_FILE_PATH)
                                 "Load Error" e)
                        (report_data w)
       end.
Proof.
  unfold loads_config, load_config.
  by destruct (safe_load h CONFIG_FILE_PATH).
Qed.





(** X17. When the system model cannot be read (the command fails or its
    trimmed output is empty) the run stops there: exit code 1, the single
    entry System_Model FAIL, no report file, the model left at "Unknown"
    and the status at FAIL; the baseline is never consulted. *)
Theorem unreadable_model_stops h now :
  reads_model h = None ->
  let r := run h now in
  r.1 = 1
  /\ checks r.2
     = [mkCheck "System_Model" FAIL (PStr "Any Model") "Read Error" ""]
  /\ report_file r.2 = None
  /\ system_model (report_data r.2) = "Unknown"
  /\ report_status (report_data r.2) = FAIL.
Proof.
  intros Hr. unfold run. rewrite main_unfold.
  pose proof (keeps_verdict_get_system_model h (initial_world now)) as [Hf Hs].
  destruct (get_system_model_reads h (initial_world now))
    as (H1 & _ & H3 & H4).
  destruct (get_system_model h (initial_world now)) as [om w1].
  simpl in *. rewrite Hr in *. subst om. simpl in *. done.
Qed.

Lemma unreadable_model_stops_witness :
  let h := table_host [(dmidecode, CalledProcessError "Permission denied")]
                      "nvidia-smi" in
  let r := run h "T" in
  r.1 = 1
  /\ checks r.2
     = [mkCheck "System_Model" FAIL (PStr "Any Model") "Read Error" ""]
  /\ report_file r.2 = None
  /\ system_model (report_data r.2) = "Unknown"
  /\ report_status (report_data r.2) = FAIL.
Proof.
  exact (unreadable_model_stops
           (table_host [(dmidecode, CalledProcessError "Permission denied")]
                       "nvidia-smi") "T" eq_refl).
Defined.

(** X18. When the model is read but the baseline is unusable, the run
    exits with 1 before any GPU check and writes no report file.  A file
    that cannot be loaded leaves the entry YAML_Load, an empty document the
    entry YAML_Parse, and an empty mapping leaves no entry at all. *)
Theorem unusable_baseline_stops h now m :
  reads_model h = Some m ->
  loads_config h = None ->
  let r := run h now in
  r.1 = 1
  /\ report_file r.2 = None
  /\ system_model (report_data r.2) = m
  /\ checks r.2
     = match safe_load h CONFIG_FILE_PATH with
       | YamlMapping _ => []
       | YamlNone =>
           [mkCheck "YAML_Parse" FAIL (PStr "Valid YAML data")
                    "File is empty or invalid" ""]
       | YamlException e =>
           [mkCheck "YAML_Load" FAIL (PStr CONFIG_FILE_PATH) "Load Error" e]
       end.
Proof.
  intros Hr Hl. unfold run. rewrite main_unfold.
  pose proof (keeps_verdict_get_system_model h (initial_world now)) as [Hf1 _].
  destruct (get_system_model_reads h (initial_world now))
    as (H1 & _ & H3 & H4).
  destruct (get_system_model h (initial_world now)) as [om w1].
  simpl in *. rewrite Hr in *. subst om. simpl in *.
  assert (m <> "") as Hne.
  { revert Hr. unfold reads_model. destruct (subprocess_run h dmidecode); try done.
    destruct (String.eqb_spec (PyStr.strip out) ""); [done |]. congruence. }
  destruct (String.eqb_spec m "") as [|_]; [done |].
  pose proof (keeps_verdict_load_config h CONFIG_FILE_PATH w1) as [Hf2 _].
  destruct (load_config_loads h w1) as [Hl1 Hl2]. rewrite Hl in Hl1.
  assert ((load_config h CONFIG_FILE_PATH w1).1
          = match safe_load h CONFIG_FILE_PATH with
            | YamlMapping c => Some c | _ => None end) as Hl3
    by apply load_config_spec.
  destruct (load_config h CONFIG_FILE_PATH w1) as [oc w2]. simpl in *.
  rewrite ?app_nil_r in H4. unfold checks in *.
  destruct (safe_load h CONFIG_FILE_PATH) as [c| |e]; subst oc.
  - case_bool_decide; [| done]. simpl. rewrite Hl2, Hf2, Hf1, H3, H4. done.
  - simpl. rewrite Hl2, Hf2, Hf1. simpl. rewrite H3, H4. done.
  - simpl. rewrite Hl2, Hf2, Hf1. simpl. rewrite H3, H4. done.
Qed.

Lemma unusable_baseline_stops_witness :
  let r := run no_config_host "T" in
  r.1 = 1
  /\ report_file r.2 = None
  /\ system_model (report_data r.2) = "SYS-421GU-TNXR"
  /\ checks r.2
     = match safe_load no_config_host CONFIG_FILE_PATH with
       | YamlMapping _ => []
       | YamlNone =>
           [mkCheck "YAML_Parse" FAIL (PStr "Valid YAML data")
                    "File is empty or invalid" ""]
       | YamlException e =>
           [mkCheck "YAML_Load" FAIL (PStr CONFIG_FILE_PATH) "Load Error" e]
       end.
Proof.
  exact (unusable_baseline_stops no_config_host "T" "SYS-421GU-TNXR"
           eq_refl eq_refl).
Defined.

Section KeepsHeader.

Lemma keeps_header_ret {A} (a : A) : keeps_header (ret a).
Proof. done. Qed.

Lemma keeps_header_print t : keeps_header (print t).
Proof. done. Qed.

Lemma keeps_header_log_msg t b : keeps_header (log_msg t b).
Proof. done. Qed.

Lemma keeps_header_add_check c s e a n :
  keeps_header (add_check_to_report c s e a n).
Proof. done. Qed.

Lemma keeps_header_set_status s : keeps_header (set_status s).
Proof. done. Qed.

Lemma keeps_header_dump : keeps_header dump.
Proof. done. Qed.

Lemma keeps_header_bind {A B} (m : M A) (k : A -> M B) :
  keeps_header m -> (forall a, keeps_header (k a)) -> keeps_header (bind m k).
Proof.
  intros Hm Hk w. unfold bind. destruct (Hm w) as [H1 H2].
  destruct (m w) as [a w1]. simpl in *.
  destruct (Hk a w1) as [H3 H4]. split; congruence.
Qed.

Ltac kh_prim :=
  first [ apply keeps_header_ret | apply keeps_header_print
        | apply keeps_header_log_msg | apply keeps_header_add_check
        | apply keeps_header_set_status | apply keeps_header_dump
        | apply keeps_header_bind ].

Lemma keeps_header_validate_items_from cn ev re vb items :
  forall i self, keeps_header (validate_items_from cn ev re vb i items self).
Proof.
  induction items as [|line rest IH]; intros i self; simpl.
  - apply keeps_header_ret.
  - apply keeps_header_bind; [| auto].
    unfold validate_item. walk kh_prim.
Qed.

Lemma keeps_header_validate h self : keeps_header (validate h self).
Proof.
  unfold validate, validate_missing_key, _check_models, _check_vbios,
    nvidia_check_models, nvidia_check_vbios, amd_check_models,
    amd_check_vbios, intel_check_models, intel_check_vbios,
    _validate_list_of_items, run_command.
  walk ltac:(first [ apply keeps_header_validate_items_from | kh_prim ]).
Qed.

Lemma keeps_header_run_validation h m c :
  keeps_header (run_validation h m c).
Proof.
  unfold run_validation, run_validator, get_validator, vendor_not_defined,
    gpu_spec_not_defined.
  walk ltac:(first [ apply keeps_header_validate | kh_prim ]).
Qed.

Lemma keeps_header_load_config h p : keeps_header (load_config h p).
Proof. unfold load_config. walk kh_prim. Qed.

Lemma keeps_header_write_report h n : keeps_header (write_report h n).
Proof. unfold write_report. walk kh_prim. Qed.

End KeepsHeader.

(** X19. The header of the report: a run never alters [report_id], which
    stays the identifier made at load time, and [system_model] is the
    trimmed output of [dmidecode] when a model was read and "Unknown"
    otherwise, whatever happens later in the run. *)
Theorem report_header h now :
  report_id (report_data (run h now).2) = "validation_report_" +:+ now
  /\ system_model (report_data (run h now).2)
     = default "Unknown" (reads_model h).
Proof.
  unfold run. rewrite main_unfold.
  destruct (get_system_model_reads h (initial_world now))
    as (H1 & H2 & H3 & _).
  destruct (get_system_model h (initial_world now)) as [om w1].
  simpl in H1, H2, H3. subst om.
  destruct (reads_model h) as [m|]; simpl in *; [| done].
  destruct (String.eqb m ""); [done |].
  destruct (keeps_header_load_config h CONFIG_FILE_PATH w1) as [H4 H5].
  destruct (load_config h CONFIG_FILE_PATH w1) as [[c|] w2]; simpl in *;
    [| split; congruence].
  case_bool_decide; [simpl; split; congruence |].
  destruct (keeps_header_run_validation h m c w2) as [H6 H7].
  destruct (run_validation h m c w2) as [n w3]. simpl in *.
  destruct (keeps_header_write_report h n w3) as [H8 H9].
  destruct (write_report h n w3) as [[] w4]. simpl in *.
  destruct (print_final_result_world n m w4) as [-> _].
  split; congruence.
Qed.

(** ** The factory, continued *)

(** X20. The factory knows exactly the three lower-case tags: for them it
    returns, without printing, a fresh validator of that vendor (counter
    at 0, the given spec); for any other tag, differently cased ones
    included, it returns [None]. *)
Theorem get_validator_cases v gs w :
  match (get_validator v gs w).1 with
  | Some x =>
      PyStr.lower (vendor_name x) = v
      /\ x = new_validator (kind x) gs
      /\ (get_validator v gs w).2 = w
  | None => unrecognized v
  end.
Proof.
  unfold get_validator, unrecognized.
  destruct (String.eqb_spec v "nvidia") as [->|H1]; [done |].
  destruct (String.eqb_spec v "amd") as [->|H2]; [done |].
  destruct (String.eqb_spec v "intel") as [->|H3]; done.
Qed.

Example get_validator_case_sensitive :
  (get_validator "NVIDIA" nvidia_spec (initial_world "T")).1 = None
  /\ (get_validator "Nvidia" nvidia_spec (initial_world "T")).1 = None
  /\ kind <$> (get_validator "nvidia" nvidia_spec (initial_world "T")).1
     = Some Nvidia.
Proof. vm_compute. done. Qed.

(** ** The NVIDIA model pattern *)

Section ModelPattern.

Import Re.

Lemma match_lazy_unfold k p s grp acc :
  match_here (LazyStar k :: p) s grp acc
  = match match_here p s grp acc with
    | Some r => Some r
    | None =>
        match s with
        | String a s' =>
            if cls_match k a
            then match_here (LazyStar k :: p) s' grp (push grp a acc)
            else None
        | EmptyString => None
        end
    end.
Proof. by destruct s. Qed.

Lemma match_star_nil k p grp acc :
  match_here (Star k :: p) EmptyString grp acc = match_here p EmptyString grp acc.
Proof. reflexivity. Qed.

(** A literal in front of the pattern consumes itself. *)
Lemma match_lit t p s acc :
  match_here (lit t ++ p) (t +:+ s) false acc = match_here p s false acc.
Proof.
  induction t as [|c t IH]; [done |].
  change (lit (String c t) ++ p) with (One (CChar c) :: (lit t ++ p)).
  change (String c t +:+ s) with (String c (t +:+ s)).
  rewrite match_one_cons.
  change (cls_match (CChar c) c) with (Ascii.eqb c c).
  by rewrite Ascii.eqb_refl.
Qed.

(** Greedy digits stop at a colon when the rest matches from there. *)
Lemma match_digits_then_colon ds p s acc r :
  Forall (fun c => PyStr.isdigit c = true) (list_ascii_of_string ds) ->
  match_here p (String ":" s) false acc = Some r ->
  match_here (Star CDigit :: p) (ds +:+ String ":" s) false acc = Some r.
Proof.
  intros Hds Hp. induction ds as [|d ds IH].
  - change ("" +:+ String ":" s) with (String ":" s).
    rewrite match_star_cons. by change (cls_match CDigit ":") with false.
  - simpl in Hds. inversion Hds as [|? ? Hd Hds']; subst.
    change (String d ds +:+ String ":" s) with (String d (ds +:+ String ":" s)).
    rewrite match_star_cons.
    change (cls_match CDigit d) with (PyStr.isdigit d). rewrite Hd.
    change (push false d acc) with acc. by rewrite (IH Hds').
Qed.

(** The closing marker does not match where the text goes on without an
    opening parenthesis. *)
Lemma marker_fails c s acc :
  (forall s', s <> String "(" s') ->
  match_here ([GroupClose] ++ lit uuid_marker) (String c s) true acc = None.
Proof.
  intros Hs.
  change (match_here ([GroupClose] ++ lit uuid_marker) (String c s) true acc)
    with (match_here (One (CChar " ") :: One (CChar "(")
                        :: lit "UUID:") (String c s) false acc).
  rewrite match_one_cons. destruct (cls_match (CChar " ") c); [| done].
  destruct s as [|c' s']; [done |].
  rewrite match_one_cons.
  change (cls_match (CChar "(") c') with (Ascii.eqb c' "(").
  destruct (Ascii.eqb_spec c' "(") as [->|_]; [| done].
  by destruct (Hs s').
Qed.

Lemma marker_matches tail acc :
  match_here ([GroupClose] ++ lit uuid_marker) (uuid_marker +:+ tail) true acc
  = Some acc.
Proof.
  change (match_here ([GroupClose] ++ lit uuid_marker) (uuid_marker +:+ tail)
                     true acc)
    with (match_here (lit uuid_marker ++ []) (uuid_marker +:+ tail) false acc).
  rewrite match_lit. by destruct tail.
Qed.

(** The lazy group takes a name without parenthesis up to the marker. *)
Lemma match_lazy_name name tail :
  Forall (fun c => c <> "("%char /\ c <> PyStr.newline)
         (list_ascii_of_string name) ->
  forall acc,
    match_here (LazyStar CDot :: ([GroupClose] ++ lit uuid_marker))
               (name +:+ uuid_marker +:+ tail) true acc
    = Some (List.rev (list_ascii_of_string name) ++ acc).
Proof.
  induction name as [|c name IH]; intros H acc.
  - change ("" +:+ uuid_marker +:+ tail) with (uuid_marker +:+ tail).
    by rewrite match_lazy_unfold, marker_matches.
  - simpl in H. inversion H as [|? ? [Hc1 Hc2] Hn]; subst.
    change (String c name +:+ uuid_marker +:+ tail)
      with (String c (name +:+ uuid_marker +:+ tail)).
    rewrite match_lazy_unfold, marker_fails.
    + change (cls_match CDot c) with (negb (Ascii.eqb c PyStr.newline)).
      destruct (Ascii.eqb_spec c PyStr.newline) as [|_]; [done |].
      simpl negb. cbv iota. change (push true c acc) with (c :: acc).
      rewrite (IH Hn). simpl. by rewrite <- app_assoc.
    + intros s' Hs'. destruct name as [|c' name'].
      * discriminate Hs'.
      * simpl in Hn. inversion Hn as [|? ? [Hc' _] _]; subst.
        injection Hs' as -> _. done.
Qed.

Lemma nvidia_model_items :
  nvidia_model
  = lit "GPU "
    ++ Plus CDigit
       :: (lit ": "
           ++ GroupOpen :: LazyStar CDot :: ([GroupClose] ++ lit uuid_marker)).
Proof. reflexivity. Qed.

Lemma search_nvidia_inventory_line d ds name tail :
  Forall (fun c => PyStr.isdigit c = true) (list_ascii_of_string (String d ds)) ->
  Forall (fun c => c <> "("%char /\ c <> PyStr.newline)
         (list_ascii_of_string name) ->
  search nvidia_model
         ("GPU " +:+ String d ds +:+ ": " +:+ name +:+ uuid_marker +:+ tail)
  = Some name.
Proof.
  intros Hds Hname. simpl in Hds. inversion Hds as [|? ? Hd Hds']; subst.
  rewrite nvidia_model_items.
  change ("GPU " +:+ String d ds +:+ ": " +:+ name +:+ uuid_marker +:+ tail)
    with (String "G" ("PU " +:+ String d ds +:+ ": " +:+ name +:+ uuid_marker
                      +:+ tail)).
  rewrite search_cons.
  change (String "G" ("PU " +:+ String d ds +:+ ": " +:+ name +:+ uuid_marker
                            +:+ tail))
    with ("GPU " +:+ String d (ds +:+ String ":" (" " +:+ name +:+ uuid_marker
                                                        +:+ tail))).
  rewrite match_lit, match_plus_cons.
  change (cls_match CDigit d) with (PyStr.isdigit d). rewrite Hd.
  change (push false d []) with (@nil ascii).
  rewrite (match_digits_then_colon ds _ _ []
             (List.rev (list_ascii_of_string name)) Hds').
  - by rewrite List.rev_involutive, string_of_list_ascii_of_string.
  - change (String ":" (" " +:+ name +:+ uuid_marker +:+ tail))
      with (": " +:+ name +:+ uuid_marker +:+ tail).
    rewrite match_lit.
    change (match_here (GroupOpen :: LazyStar CDot
                          :: ([GroupClose] ++ lit uuid_marker))
                       (name +:+ uuid_marker +:+ tail) false [])
      with (match_here (LazyStar CDot :: ([GroupClose] ++ lit uuid_marker))
                       (name +:+ uuid_marker +:+ tail) true []).
    rewrite (match_lazy_name name tail Hname). by rewrite app_nil_r.
Qed.

End ModelPattern.

(** X21. NVIDIA inventory lines: on a line "GPU <digits>: <name> (UUID:..."
    whose name has no opening parenthesis, the model that is checked is the
    name, trimmed, and the entry is PASS exactly when it equals the
    expected model. *)
Theorem nvidia_model_is_the_name d ds name tail e i :
  Forall (fun c => PyStr.isdigit c = true) (list_ascii_of_string (String d ds)) ->
  Forall (fun c => c <> "("%char /\ c <> PyStr.newline)
         (list_ascii_of_string name) ->
  item_check "Model" (PStr e) Re.nvidia_model false i
             ("GPU " +:+ String d ds +:+ ": " +:+ name +:+ " (UUID:" +:+ tail)
  = mkCheck ("GPU_" +:+ PyStr.of_nat i +:+ "_Model")
            (if String.eqb (PyStr.strip name) e then PASS else FAIL)
            (PStr e) (PyStr.strip name) "".
Proof.
  intros Hds Hname. unfold item_check.
  change " (UUID:" with uuid_marker.
  by rewrite (search_nvidia_inventory_line d ds name tail Hds Hname).
Qed.

Lemma nvidia_model_is_the_name_witness :
  item_check "Model" (PStr "NVIDIA H100 80GB PCIe") Re.nvidia_model false 7
             ("GPU " +:+ String "1" "2" +:+ ": " +:+ "NVIDIA H100 80GB PCIe"
              +:+ " (UUID:" +:+ " GPU-1f2e)")
  = mkCheck ("GPU_" +:+ PyStr.of_nat 7 +:+ "_Model")
            (if String.eqb (PyStr.strip "NVIDIA H100 80GB PCIe")
                           "NVIDIA H100 80GB PCIe" then PASS else FAIL)
            (PStr "NVIDIA H100 80GB PCIe")
            (PyStr.strip "NVIDIA H100 80GB PCIe") "".
Proof.
  apply (nvidia_model_is_the_name "1" "2" "NVIDIA H100 80GB PCIe" " GPU-1f2e)"
           "NVIDIA H100 80GB PCIe" 7).
  - repeat constructor.
  - repeat constructor; discriminate.
Defined.

(** ** The AMD patterns *)

Section AmdPatterns.

Import Re.

(** A colon, whitespace, then the group: the group is the rest of the line
    without its leading whitespace. *)
Lemma match_colon_space_group a rest acc :
  PyStr.isspace a = true ->
  Forall (fun c => c <> PyStr.newline) (list_ascii_of_string rest) ->
  match_here (One (CChar ":") :: Plus CSpace
                :: [GroupOpen; Star CDot; GroupClose])
             (String ":" (String a rest)) false acc
  = Some (List.rev (list_ascii_of_string (PyStr.lstrip rest))).
Proof.
  intros Ha Hrest. rewrite match_one_cons.
  change (cls_match (CChar ":") ":") with (Ascii.eqb ":" ":").
  rewrite Ascii.eqb_refl, match_plus_cons.
  change (cls_match CSpace a) with (PyStr.isspace a).
  by rewrite Ha, (match_space_star_group _ Hrest).
Qed.

Lemma amd_model_items :
  amd_model
  = lit "Card #"
    ++ Plus CDigit
       :: One (CChar ":") :: Plus CSpace :: [GroupOpen; Star CDot; GroupClose].
Proof. reflexivity. Qed.

Lemma search_amd_model_line d ds a rest :
  Forall (fun c => PyStr.isdigit c = true) (list_ascii_of_string (String d ds)) ->
  PyStr.isspace a = true ->
  Forall (fun c => c <> PyStr.newline) (list_ascii_of_string rest) ->
  search amd_model ("Card #" +:+ String d ds +:+ String ":" (String a rest))
  = Some (PyStr.lstrip rest).
Proof.
  intros Hds Ha Hrest. simpl in Hds. inversion Hds as [|? ? Hd Hds']; subst.
  rewrite amd_model_items.
  change ("Card #" +:+ String d ds +:+ String ":" (String a rest))
    with (String "C" ("ard #" +:+ String d ds +:+ String ":" (String a rest))).
  rewrite search_cons.
  change (String "C" ("ard #" +:+ String d ds +:+ String ":" (String a rest)))
    with ("Card #" +:+ String d (ds +:+ String ":" (String a rest))).
  rewrite match_lit, match_plus_cons.
  change (cls_match CDigit d) with (PyStr.isdigit d). rewrite Hd.
  change (push false d []) with (@nil ascii).
  rewrite (match_digits_then_colon ds _ _ []
             (List.rev (list_ascii_of_string (PyStr.lstrip rest))) Hds').
  - by rewrite List.rev_involutive, string_of_list_ascii_of_string.
  - by apply match_colon_space_group.
Qed.

(** A pattern that starts with a literal character skips a prefix without
    that character. *)
Lemma search_skip c p pre s :
  Forall (fun a => a <> c) (list_ascii_of_string pre) ->
  search (One (CChar c) :: p) (pre +:+ s) = search (One (CChar c) :: p) s.
Proof.
  induction pre as [|a pre IH]; intros H; [done |].
  simpl in H. inversion H as [|? ? Ha Hp]; subst.
  change (String a pre +:+ s) with (String a (pre +:+ s)).
  rewrite search_cons, match_one_cons.
  change (cls_match (CChar c) a) with (Ascii.eqb a c).
  destruct (Ascii.eqb_spec a c) as [|_]; [done |]. by apply IH.
Qed.

Lemma amd_vbios_items :
  amd_vbios
  = One (CChar "V")
    :: (lit "BIOS version:"
        ++ Plus CSpace :: [GroupOpen; Star CDot; GroupClose]).
Proof. reflexivity. Qed.

Lemma search_amd_vbios_line pre a rest :
  Forall (fun c => c <> "V"%char) (list_ascii_of_string pre) ->
  PyStr.isspace a = true ->
  Forall (fun c => c <> PyStr.newline) (list_ascii_of_string rest) ->
  search amd_vbios (pre +:+ "VBIOS version:" +:+ String a rest)
  = Some (PyStr.lstrip rest).
Proof.
  intros Hpre Ha Hrest. rewrite amd_vbios_items, (search_skip _ _ _ _ Hpre).
  change ("VBIOS version:" +:+ String a rest)
    with (String "V" ("BIOS version:" +:+ String a rest)).
  rewrite search_cons, match_one_cons.
  change (cls_match (CChar "V") "V") with (Ascii.eqb "V" "V").
  rewrite Ascii.eqb_refl. change (push false "V" []) with (@nil ascii).
  rewrite match_lit, match_plus_cons.
  change (cls_match CSpace a) with (PyStr.isspace a).
  rewrite Ha, (match_space_star_group _ Hrest).
  by rewrite List.rev_involutive, string_of_list_ascii_of_string.
Qed.

End AmdPatterns.

Lemma strip_lstrip s : PyStr.strip (PyStr.lstrip s) = PyStr.strip s.
Proof. unfold PyStr.strip. by rewrite lstrip_idemp. Qed.

(** X22. AMD product lines: on a line "Card #<digits>:" followed by
    whitespace and a text, the model that is checked is the text, trimmed,
    and the entry is PASS exactly when it equals the expected model. *)
Theorem amd_model_is_the_text d ds a rest e i :
  Forall (fun c => PyStr.isdigit c = true) (list_ascii_of_string (String d ds)) ->
  PyStr.isspace a = true ->
  Forall (fun c => c <> PyStr.newline) (list_ascii_of_string rest) ->
  item_check "Model" (PStr e) Re.amd_model false i
             ("Card #" +:+ String d ds +:+ String ":" (String a rest))
  = mkCheck ("GPU_" +:+ PyStr.of_nat i +:+ "_Model")
            (if String.eqb (PyStr.strip rest) e then PASS else FAIL)
            (PStr e) (PyStr.strip rest) "".
Proof.
  intros Hds Ha Hrest. unfold item_check.
  rewrite (search_amd_model_line d ds a rest Hds Ha Hrest).
  cbv zeta. by rewrite strip_lstrip.
Qed.

Lemma amd_model_is_the_text_witness :
  item_check "Model" (PStr "AMD Instinct MI300X") Re.amd_model false 0
             ("Card #" +:+ String "0" "" +:+ String ":" (String " " "AMD Instinct MI300X"))
  = mkCheck ("GPU_" +:+ PyStr.of_nat 0 +:+ "_Model")
            (if String.eqb (PyStr.strip "AMD Instinct MI300X")
                           "AMD Instinct MI300X" then PASS else FAIL)
            (PStr "AMD Instinct MI300X") (PyStr.strip "AMD Instinct MI300X") "".
Proof.
  apply (amd_model_is_the_text "0" "" " " "AMD Instinct MI300X"
           "AMD Instinct MI300X" 0).
  - repeat constructor.
  - reflexivity.
  - repeat constructor; discriminate.
Defined.

(** X23. AMD VBIOS lines: on a line that reads "VBIOS version:" after a
    prefix without the letter V, followed by whitespace and a text, the
    value that is checked is the text, trimmed, and the entry is PASS
    exactly when it is one of the expected list. *)
Theorem amd_vbios_is_the_text pre a rest l i :
  Forall (fun c => c <> "V"%char) (list_ascii_of_string pre) ->
  PyStr.isspace a = true ->
  Forall (fun c => c <> PyStr.newline) (list_ascii_of_string rest) ->
  item_check "VBIOS" (PList l) Re.amd_vbios true i
             (pre +:+ "VBIOS version:" +:+ String a rest)
  = mkCheck ("GPU_" +:+ PyStr.of_nat i +:+ "_VBIOS")
            (if bool_decide (PyStr.strip rest ∈ l) then PASS else FAIL)
            (PList l) (PyStr.strip rest) "".
Proof.
  intros Hpre Ha Hrest. unfold item_check.
  rewrite (search_amd_vbios_line pre a rest Hpre Ha Hrest).
  cbv zeta. by rewrite strip_lstrip.
Qed.

Lemma amd_vbios_is_the_text_witness :
  item_check "VBIOS" (PList ["123.456.789.001"; "123.456.789.000"])
             Re.amd_vbios true 0
             ("Card #0: " +:+ "VBIOS version:" +:+ String " " "123.456.789.001")
  = mkCheck ("GPU_" +:+ PyStr.of_nat 0 +:+ "_VBIOS")
            (if bool_decide (PyStr.strip "123.456.789.001"
                             ∈ ["123.456.789.001"; "123.456.789.000"])
             then PASS else FAIL)
            (PList ["123.456.789.001"; "123.456.789.000"])
            (PyStr.strip "123.456.789.001") "".
Proof.
  apply (amd_vbios_is_the_text "Card #0: " " " "123.456.789.001"
           ["123.456.789.001"; "123.456.789.000"] 0).
  - repeat constructor; discriminate.
  - reflexivity.
  - repeat constructor; discriminate.
Defined.

(** ** The vendor gate, continued *)

(** X24. The probe order of the gate: when [nvidia-smi] is installed the
    other tools are not looked at, so a baseline that declares another
    vendor fails the gate with actual "nvidia" whatever else is
    installed. *)
Theorem nvidia_tool_shadows_others h m c ms v w :
  which h "nvidia-smi" = true ->
  c !! m = Some ms ->
  expected_gpu_vendor ms = Some v ->
  v <> "" ->
  v <> "nvidia" ->
  let r := run_validation h m c w in
  r.1 = 1
  /\ checks r.2 = checks w ++ [mkCheck "GPU_Vendor" FAIL (PStr v) "nvidia" ""].
Proof.
  intros Hw Hm He Hv Hn. unfold run_validation, detect_tool.
  rewrite Hm, He, Hw. cbv zeta.
  destruct (String.eqb_spec v "") as [|_]; [done |].
  rewrite bool_decide_eq_false_2 by congruence. done.
Qed.

Lemma nvidia_tool_shadows_others_witness :
  let h := {| subprocess_run := subprocess_run amd_ok_host;
              which := fun t => String.eqb t "nvidia-smi" || String.eqb t "rocm-smi";
              safe_load := safe_load amd_ok_host;
              dump_report := dump_report amd_ok_host;
              dump_fallback := dump_fallback amd_ok_host |} in
  let r := run_validation h "SYS-8125GS-TNHR" golden (initial_world "T") in
  r.1 = 1
  /\ checks r.2
     = checks (initial_world "T")
       ++ [mkCheck "GPU_Vendor" FAIL (PStr "amd") "nvidia" ""].
Proof.
  apply (nvidia_tool_shadows_others
           {| subprocess_run := subprocess_run amd_ok_host;
              which := fun t => String.eqb t "nvidia-smi" || String.eqb t "rocm-smi";
              safe_load := safe_load amd_ok_host;
              dump_report := dump_report amd_ok_host;
              dump_fallback := dump_fallback amd_ok_host |}
           "SYS-8125GS-TNHR" golden
           (mkModelSpec (Some "amd") (Some amd_spec)) "amd" (initial_world "T")).
  - reflexivity.
  - vm_compute. reflexivity.
  - reflexivity.
  - discriminate.
  - discriminate.
Defined.

(** X25. Past the gate, a model whose [gpu_spec] is absent or is an empty
    mapping fails without a validator being made: the run returns 1 with
    the two entries GPU_Vendor PASS and GPU_Spec FAIL. *)
Theorem missing_gpu_spec_fails h m c ms v w :
  c !! m = Some ms ->
  expected_gpu_vendor ms = Some v ->
  detect_tool h = Some v ->
  gpu_spec ms = None \/ gpu_spec ms = Some ∅ ->
  let r := run_validation h m c w in
  r.1 = 1
  /\ checks r.2
     = checks w
       ++ [mkCheck "GPU_Vendor" PASS (PStr v) v "";
           mkCheck "GPU_Spec" FAIL (PStr "Spec to exist")
                   "Not Defined in YAML" ""].
Proof.
  intros Hm He Ht Hg. unfold run_validation, gpu_spec_not_defined.
  rewrite Hm, He, Ht. cbv zeta.
  destruct (String.eqb_spec v "") as [->|_].
  { apply detect_tool_recognized in Ht. by destruct Ht as [|[|]]. }
  rewrite bool_decide_eq_true_2 by done.
  destruct Hg as [-> | ->]; [| rewrite bool_decide_eq_true_2 by done];
    unfold bind, checks; simpl; by rewrite <- app_assoc.
Qed.

Lemma missing_gpu_spec_fails_witness :
  let c : gmap string model_spec :=
    {["SYS-421GU-TNXR" := mkModelSpec (Some "nvidia") (Some ∅)]} in
  let r := run_validation nvidia_ok_host "SYS-421GU-TNXR" c (initial_world "T") in
  r.1 = 1
  /\ checks r.2
     = checks (initial_world "T")
       ++ [mkCheck "GPU_Vendor" PASS (PStr "nvidia") "nvidia" "";
           mkCheck "GPU_Spec" FAIL (PStr "Spec to exist")
                   "Not Defined in YAML" ""].
Proof.
  apply (missing_gpu_spec_fails nvidia_ok_host "SYS-421GU-TNXR"
           {["SYS-421GU-TNXR" := mkModelSpec (Some "nvidia") (Some ∅)]}
           (mkModelSpec (Some "nvidia") (Some ∅)) "nvidia" (initial_world "T")).
  - vm_compute. reflexivity.
  - reflexivity.
  - reflexivity.
  - right. reflexivity.
Defined.
